(** * Request orchestration of the Inceptra server

    A shallow embedding of the Express handlers of the repository: the
    daily quota middleware ([middleware/rateLimit.ts]), the three
    provider fallback loops ([routes/image.ts], [routes/bgRemove.ts],
    [routes/resume.ts]) and the history listing ([routes/history.ts]).

    Handlers are written in a small state-and-exception monad over a
    [world]: the Prisma store, and a log of the calls a handler makes to
    its collaborators (store queries, provider calls).  Everything the
    handlers cannot decide themselves -- the clock, token verification,
    what a provider answers and how long it takes, whether the store
    accepts a write -- is read from an explicit environment [env]. *)

From Stdlib Require Import ZArith List String Ascii Bool Lia.
From Stdlib Require Strings.Byte.
From Stdlib Require Import Sorting.Sorted Sorting.Permutation.
From Stdlib Require DecimalString.
Import ListNotations.

Open Scope string_scope.
Open Scope Z_scope.

(* ================================================================== *)
(** ** JavaScript values used by the handlers *)
(* ================================================================== *)

Module Js.

(** Strings are sequences of code units; the model covers the code units
    below 256, which is what [string] holds.  [length] counts them. *)
Definition length (s : string) : Z := Z.of_nat (String.length s).

(** White space of [String.prototype.trim] among the code units below
    256: TAB, LF, VT, FF, CR, SP and NBSP. *)
Definition is_whitespace (c : ascii) : bool :=
  let n := N_of_ascii c in
  ((9 <=? n) && (n <=? 13) || (n =? 32) || (n =? 160))%N.

Fixpoint trimStart (s : string) : string :=
  match s with
  | EmptyString => EmptyString
  | String c rest => if is_whitespace c then trimStart rest else s
  end.

Fixpoint rev_onto (s acc : string) : string :=
  match s with
  | EmptyString => acc
  | String c rest => rev_onto rest (String c acc)
  end.

Definition reverse (s : string) : string := rev_onto s EmptyString.

Definition trimEnd (s : string) : string := reverse (trimStart (reverse s)).

Definition trim (s : string) : string := trimEnd (trimStart s).

Fixpoint startsWith (prefix s : string) : bool :=
  match prefix, s with
  | EmptyString, _ => true
  | String p prefix', String c s' => Ascii.eqb p c && startsWith prefix' s'
  | String _ _, EmptyString => false
  end.

Fixpoint includes (s needle : string) : bool :=
  startsWith needle s ||
  match s with
  | EmptyString => false
  | String _ rest => includes rest needle
  end.

(** [s.split(" ")[1]]: the text between the first and the second space,
    [None] (undefined) when [s] has no space. *)
Fixpoint upto_space (s : string) : string :=
  match s with
  | EmptyString => EmptyString
  | String c rest => if Ascii.eqb c " " then EmptyString else String c (upto_space rest)
  end.

Fixpoint split_space_1 (s : string) : option string :=
  match s with
  | EmptyString => None
  | String c rest => if Ascii.eqb c " " then Some (upto_space rest) else split_space_1 rest
  end.

(** Truthiness of a string: the empty string is falsy. *)
Definition truthy_string (s : string) : bool := negb (String.eqb s EmptyString).

(** The double quote character. *)
Definition quote : ascii := ascii_of_N 34.

Definition number_to_string (n : Z) : string :=
  DecimalString.NilZero.string_of_int (Z.to_int n).

(** An exception value.  The handlers read two things from it:
    [error.message] and [error?.response?.status]. *)
Record error : Type := mkError {
  message : string;
  response_status : option Z
}.

(** [new Error(msg)] *)
Definition Error (msg : string) : error :=
  {| message := msg; response_status := None |}.

Definition status_is (e : error) (code : Z) : bool :=
  match response_status e with
  | Some s => s =? code
  | None => false
  end.

(** The result of [Number(x)] for a query parameter [x]: [NaN] (which is
    what an absent or a non-numeric parameter reads as), an integer, a
    finite non-integer (kept by its floor), or an infinity. *)
Inductive number : Type :=
| NaN
| Int (n : Z)
| Frac (floor : Z)
| PosInfinity
| NegInfinity.

(** Falsy numbers are [NaN] and zero. *)
Definition truthy_number (x : number) : bool :=
  match x with
  | NaN => false
  | Int n => negb (n =? 0)
  | _ => true
  end.

(** [x || d] *)
Definition or_default (x : number) (d : Z) : number :=
  if truthy_number x then x else Int d.

(** [Math.min(x, c)] and [Math.max(x, c)] for an integer constant [c]. *)
Definition Math_min (x : number) (c : Z) : number :=
  match x with
  | NaN => NaN
  | Int n => Int (Z.min n c)
  | Frac f => if f <? c then Frac f else Int c
  | PosInfinity => Int c
  | NegInfinity => NegInfinity
  end.

Definition Math_max (x : number) (c : Z) : number :=
  match x with
  | NaN => NaN
  | Int n => Int (Z.max n c)
  | Frac f => if c <=? f then Frac f else Int c
  | PosInfinity => PosInfinity
  | NegInfinity => Int c
  end.

(** [x > c] *)
Definition gt (x : number) (c : Z) : bool :=
  match x with
  | NaN => false
  | Int n => c <? n
  | Frac f => c <=? f
  | PosInfinity => true
  | NegInfinity => false
  end.

End Js.

(* ================================================================== *)
(** ** The store, the log and the handler monad *)
(* ================================================================== *)

(** JSON columns of a history row: the handlers only ever store flat
    objects with string fields. *)
Definition json : Type := list (string * string).

(** A field whose value is [undefined] is dropped when the object is
    stored. *)
Definition field (k : string) (v : option string) : json :=
  match v with
  | Some s => [(k, s)]
  | None => []
  end.

Record User : Type := mkUser {
  user_id : string;
  email : string;
  isPremium : bool
}.

Record GenerationHistory : Type := mkGeneration {
  id : string;
  userId : string;
  feature : string;
  input : json;
  output : json;
  createdAt : Z          (* milliseconds since the epoch *)
}.

Record store : Type := mkStore {
  users : list User;
  generationHistory : list GenerationHistory
}.

(** What a handler asks of its collaborators, in the order it asks. *)
Inductive event : Type :=
| UserFindUnique (uid : string)
| UserUpsert (uid : string)
| HistoryCount (uid ft : string) (gte : Z)
| HistoryCountAll (uid : string)
| HistoryFindMany (uid : string)
| HistoryCreate (uid ft : string)
| ProviderCall (model : string).

Record world : Type := mkWorld {
  db : store;
  log : list event
}.

Inductive outcome (A : Type) : Type :=
| Returned (a : A)
| Thrown (e : Js.error).
Arguments Returned {A} a.
Arguments Thrown {A} e.

Definition M (A : Type) : Type := world -> outcome A * world.

Definition ret {A} (a : A) : M A := fun w => (Returned a, w).

Definition throw {A} (e : Js.error) : M A := fun w => (Thrown e, w).

Definition bind {A B} (m : M A) (k : A -> M B) : M B :=
  fun w =>
    match m w with
    | (Returned a, w') => k a w'
    | (Thrown e, w') => (Thrown e, w')
    end.

(** [try { m } catch (e) { h e }] *)
Definition try_catch {A} (m : M A) (h : Js.error -> M A) : M A :=
  fun w =>
    match m w with
    | (Returned a, w') => (Returned a, w')
    | (Thrown e, w') => h e w'
    end.

Definition emit (ev : event) : M unit :=
  fun w => (Returned tt, {| db := db w; log := log w ++ [ev] |}).

Definition get_db : M store := fun w => (Returned (db w), w).

Definition put_db (s : store) : M unit :=
  fun w => (Returned tt, {| db := s; log := log w |}).

(** The world after some more events, the store untouched. *)
Definition logged (w : world) (evs : list event) : world :=
  {| db := db w; log := log w ++ evs |}.

Declare Scope handler_scope.
Delimit Scope handler_scope with handler.
Notation "x <- m ;; k" := (bind m (fun x => k))
  (at level 61, m at next level, right associativity) : handler_scope.
Notation "m ;;; k" := (bind m (fun _ => k))
  (at level 61, right associativity) : handler_scope.
Open Scope handler_scope.

(** A history row as the listing selects it: every column but the
    owner. *)
Record history_item : Type := mkItem {
  item_id : string;
  item_feature : string;
  item_input : json;
  item_output : json;
  item_createdAt : Z
}.

Definition select (g : GenerationHistory) : history_item :=
  {| item_id := id g; item_feature := feature g; item_input := input g;
     item_output := output g; item_createdAt := createdAt g |}.

(** HTTP responses.  The body is one of the JSON objects the handlers
    send. *)
Record pagination : Type := mkPagination {
  currentPage : Js.number;
  totalCount : Z;
  hasNextPage : bool;
  hasPreviousPage : bool;
  nextCursor : option string;
  limit : Js.number
}.

Inductive body : Type :=
| ErrorBody (error : string)                       (* { error } *)
| ErrorDetailBody (error detail : string)          (* { error, detail } *)
| ImageBody (image : string)                       (* { image } *)
| AnalysisBody (analysis : string)                 (* { analysis } *)
| HistoryBody (history : list history_item) (p : pagination)
| InternalErrorBody (message error : string).      (* { message, error } *)

Record response : Type := mkResponse {
  status : Z;
  payload : body
}.

(** [res.json(b)] answers with status 200. *)
Definition json_ok (b : body) : response := {| status := 200; payload := b |}.

(** How long a provider call takes and how it ends. *)
Inductive settled (P : Type) : Type :=
| Fulfils (p : P)
| Rejects (e : Js.error).
Arguments Fulfils {P} p.
Arguments Rejects {P} e.

Inductive behaviour (P : Type) : Type :=
| Settles (after_ms : Z) (r : settled P)
| Pending.                                      (* never settles *)
Arguments Settles {P} after_ms r.
Arguments Pending {P}.

(* ================================================================== *)
(** ** Requests and the environment *)
(* ================================================================== *)

Definition bytes : Type := list Byte.byte.

(** [req.file] as multer leaves it. *)
Record upload : Type := mkUpload {
  originalname : string;
  mimetype : string;
  buffer : bytes
}.

Record request : Type := mkRequest {
  authorization : option string;        (* req.headers.authorization *)
  auth : option string;                 (* req.auth?.userId *)
  prompt : option string;               (* req.body.prompt *)
  style : option string;
  size : option string;
  file : option upload;                 (* the multipart file, if any *)
  query_limit : Js.number;              (* Number(req.query.limit) *)
  query_cursor : option string;         (* req.query.cursor *)
  query_page : Js.number                (* Number(req.query.page) *)
}.

Definition with_auth (req : request) (uid : string) : request :=
  {| authorization := authorization req; auth := Some uid;
     prompt := prompt req; style := style req; size := size req;
     file := file req; query_limit := query_limit req;
     query_cursor := query_cursor req; query_page := query_page req |}.

(** A truthy [response.buffer], as [Buffer.from] takes it: a value it
    turns into bytes, or a value it refuses with the [TypeError] it
    throws. *)
Inductive buffer_field : Type :=
| BufferOf (content : bytes)
| NotABuffer (error : Js.error).

(** What [hf.textToImage] can resolve to, as far as [convertToBase64]
    tells the shapes apart. *)
Inductive image_payload : Type :=
| ImgFalsy                                       (* undefined, null, ... *)
| ImgString (s : string)
| ImgBlob (content : bytes)
| ImgArrayBuffer (content : bytes)
| ImgObject (data : option string) (buf : option buffer_field)
            (base64 image : option string).

(** What [hf.imageSegmentation] can resolve to, as far as the mask
    extraction tells the shapes apart.  [MaskObject] is any object or
    array: the fields the extraction reads ([mask], [image], ['0']) and
    its [JSON.stringify] text. *)
Inductive mask_item : Type :=
| ItemString (s : string)
| ItemObject (mask image : option string).

Inductive mask_payload : Type :=
| MaskFalsy
| MaskBlob (content : bytes)
| MaskString (s : string)
| MaskObject (mask image : option string) (item0 : option mask_item)
             (stringified : string).

(** What [hf.chatCompletion] can resolve to: [choices], each with its
    [message?.content]. *)
Record choice : Type := mkChoice {
  message_content : option string
}.

Inductive completion : Type :=
| CompletionFalsy
| Completion (choices : option (list choice)).

(** The collaborators.  [now] is the clock read by the quota check,
    [insert_time] and [fresh_id] the timestamp and id the store assigns
    to a new row, [create_failure] the error of a write the store
    refuses ([None]: the write goes through).  The sharp pipelines
    either produce their result or throw; [getDocument] is pdf.js
    opening a document: it throws, or gives the pages, each of which
    yields its text items or fails. *)
Record env : Type := mkEnv {
  now : Z;
  insert_time : Z;
  fresh_id : string;
  create_failure : option Js.error;
  verifyToken : string -> Js.error + (string * option string);
  textToImage : string -> string -> behaviour image_payload;
  imageSegmentation : string -> bytes -> behaviour mask_payload;
  chatCompletion : string -> string -> behaviour completion;
  sharp_compress : bytes -> Js.error + bytes;
  sharp_composite : bytes -> bytes -> Js.error + bytes;
  base64_encode : bytes -> string;
  base64_decode : string -> bytes;
  getDocument : bytes -> Js.error + list (option (list string))
}.

(* ================================================================== *)
(** ** utils/pdfExtract.ts *)
(* ================================================================== *)

Module PdfExtract.

Definition newline : string := String (ascii_of_N 10) EmptyString.

(** [items.join(sep)] *)
Fixpoint join (sep : string) (items : list string) : string :=
  match items with
  | [] => EmptyString
  | [s] => s
  | s :: rest => s ++ sep ++ join sep rest
  end.

(** A page that fails counts as empty. *)
Definition processPage (page : option (list string)) : string :=
  match page with
  | Some items => join " " items
  | None => EmptyString
  end.

Definition extractTextFromPdf (E : env) (buffer : bytes) : Js.error + string :=
  let wrap (error : Js.error) :=
    Js.Error ("Failed to extract text from PDF: " ++ Js.message error) in
  match getDocument E buffer with
  | inl error => inl (wrap error)
  | inr pages =>
      let fullText := Js.trim (join newline (map processPage pages)) in
      if negb (Js.truthy_string fullText)
      then inl (wrap (Js.Error "No text could be extracted from the PDF"))
      else inr fullText
  end.

End PdfExtract.

(* ================================================================== *)
(** ** Prisma calls *)
(* ================================================================== *)

Module Prisma.

Definition user_findUnique (uid : string) : M (option User) :=
  emit (UserFindUnique uid) ;;;
  s <- get_db ;;
  ret (find (fun u => String.eqb (user_id u) uid) (users s)).

(** [upsert({ where: { id }, create: { id, email, isPremium: false },
    update: { email } })] *)
Fixpoint upsert_rows (uid mail : string) (us : list User) : list User :=
  match us with
  | [] => [ {| user_id := uid; email := mail; isPremium := false |} ]
  | u :: rest =>
      if String.eqb (user_id u) uid
      then {| user_id := uid; email := mail; isPremium := isPremium u |} :: rest
      else u :: upsert_rows uid mail rest
  end.

Definition user_upsert (uid mail : string) : M unit :=
  emit (UserUpsert uid) ;;;
  s <- get_db ;;
  put_db {| users := upsert_rows uid mail (users s);
            generationHistory := generationHistory s |}.

(** [count({ where: { userId, feature, createdAt: { gte } } })] *)
Definition matches (uid ft : string) (gte : Z) (g : GenerationHistory) : bool :=
  String.eqb (userId g) uid && String.eqb (feature g) ft && (gte <=? createdAt g).

Definition count_rows (uid ft : string) (gte : Z) (rows : list GenerationHistory) : Z :=
  Z.of_nat (List.length (filter (matches uid ft gte) rows)).

Definition generationHistory_count (uid ft : string) (gte : Z) : M Z :=
  emit (HistoryCount uid ft gte) ;;;
  s <- get_db ;;
  ret (count_rows uid ft gte (generationHistory s)).

(** [create({ data: { userId, feature, input, output } })]: the store
    assigns the id and the timestamp, or refuses the write. *)
Definition generationHistory_create (E : env) (uid ft : string) (i o : json)
  : M GenerationHistory :=
  emit (HistoryCreate uid ft) ;;;
  match create_failure E with
  | Some e => throw e
  | None =>
      s <- get_db ;;
      let row := {| id := fresh_id E; userId := uid; feature := ft;
                    input := i; output := o; createdAt := insert_time E |} in
      put_db {| users := users s;
                generationHistory := generationHistory s ++ [row] |} ;;;
      ret row
  end.

End Prisma.

(* ================================================================== *)
(** ** middleware/clerkAuth.ts and middleware/rateLimit.ts *)
(* ================================================================== *)

(** A middleware either calls [next()] or answers the request. *)
Inductive step : Type :=
| Next (req : request)
| Sent (r : response).

Definition requireAuth (E : env) (req : request) : M step :=
  try_catch
    (match authorization req with
     | None =>
         ret (Sent {| status := 401;
                      payload := ErrorBody "Missing or invalid Authorization header" |})
     | Some authHeader =>
         if negb (Js.startsWith "Bearer " authHeader)
         then ret (Sent {| status := 401;
                           payload := ErrorBody "Missing or invalid Authorization header" |})
         else
           let token := match Js.split_space_1 authHeader with
                        | Some t => t
                        | None => EmptyString
                        end in
           match verifyToken E token with
           | inl e => throw e
           | inr (sub, mail) =>
               Prisma.user_upsert sub (match mail with Some m => m | None => EmptyString end) ;;;
               ret (Next (with_auth req sub))
           end
     end)
    (fun error =>
       ret (Sent {| status := 401;
                    payload := ErrorDetailBody "Unauthorized" (Js.message error) |})).

(** The store after [requireAuth] has let a request through. *)
Definition signed_in (w : world) (sub mail : string) : world :=
  {| db := {| users := Prisma.upsert_rows sub mail (users (db w));
              generationHistory := generationHistory (db w) |};
     log := log w ++ [UserUpsert sub] |}.

Module RateLimit.

Definition FREE_LIMITS : list (string * Z) :=
  [ ("article-generator", 10);
    ("image-generator", 10);
    ("background-remover", 10);
    ("resume-analyzer", 10) ].

(** [FREE_LIMITS] is an object literal, so a lookup that misses its own
    keys falls through to [Object.prototype]. *)
Definition Object_prototype_keys : list string :=
  [ "constructor"; "hasOwnProperty"; "isPrototypeOf"; "propertyIsEnumerable";
    "toLocaleString"; "toString"; "valueOf"; "__proto__";
    "__defineGetter__"; "__defineSetter__"; "__lookupGetter__"; "__lookupSetter__" ].

(** The value of [FREE_LIMITS[feature]]. *)
Inductive looked_up : Type :=
| Undefined
| Number (n : Z)
| Inherited.                        (* a function or object, not a number *)

Fixpoint own (ft : string) (table : list (string * Z)) : option Z :=
  match table with
  | [] => None
  | (k, v) :: rest => if String.eqb k ft then Some v else own ft rest
  end.

Definition lookup (ft : string) : looked_up :=
  match own ft FREE_LIMITS with
  | Some n => Number n
  | None =>
      if existsb (String.eqb ft) Object_prototype_keys then Inherited else Undefined
  end.

(** [FREE_LIMITS[feature] ?? 0] *)
Definition limit_for (ft : string) : looked_up :=
  match lookup ft with
  | Undefined => Number 0
  | v => v
  end.

(** [count >= limit]: comparing with a value that is not a number is
    false. *)
Definition reached (count : Z) (lim : looked_up) : bool :=
  match lim with
  | Number n => n <=? count
  | _ => false
  end.

(** [setUTCHours(0, 0, 0, 0)] on the current time. *)
Definition startOfDay (t : Z) : Z := t - t mod 86400000.

Definition limit_message (lim : looked_up) (ft : string) : string :=
  "Free limit of " ++
  match lim with Number n => Js.number_to_string n | _ => EmptyString end ++
  " per day reached for " ++ ft ++
  ". Upgrade to Premium for unlimited access.".

Definition enforceDailyLimit (E : env) (ft : string) (req : request) : M step :=
  match auth req with
  | None =>    (* destructuring [req.auth] when no middleware has set it *)
      throw (Js.Error "Cannot destructure property 'userId' of undefined")
  | Some uid =>
      user <- Prisma.user_findUnique uid ;;
      match user with
      | None => ret (Sent {| status := 401; payload := ErrorBody "User not found." |})
      | Some u =>
          if isPremium u then ret (Next req)
          else
            count <- Prisma.generationHistory_count uid ft (startOfDay (now E)) ;;
            let lim := limit_for ft in
            if reached count lim
            then ret (Sent {| status := 429;
                              payload := ErrorBody (limit_message lim ft) |})
            else ret (Next req)
      end
  end.

End RateLimit.

(** [upload.single(...)]: multer hands a file that fails the filter or
    the size limit to the error handler of the application, and calls
    [next()] otherwise (also when the request carries no file). *)
Definition upload_single (allowed : list string) (fileSize : Z) (refusal : string)
    (req : request) : M step :=
  match file req with
  | None => ret (Next req)
  | Some f =>
      if negb (existsb (String.eqb (mimetype f)) allowed)
      then throw (Js.Error refusal)
      else if fileSize <? Z.of_nat (List.length (buffer f))
      then throw (Js.Error "File too large")
      else ret (Next req)
  end.

(** [router.post("/", m1, ..., mk, handler)]: the middlewares run in the
    order they are listed, and the first one that answers ends the
    request. *)
Fixpoint chain (mws : list (request -> M step)) (handler : request -> M response)
    (req : request) : M response :=
  match mws with
  | [] => handler req
  | mw :: rest =>
      s <- mw req ;;
      match s with
      | Next req' => chain rest handler req'
      | Sent r => ret r
      end
  end.

(* ================================================================== *)
(** ** The provider fallback loop *)
(* ================================================================== *)

Module Fallback.

(** [Promise.race([call, timeoutPromise])]: the call wins when it
    settles before the timer; a call that settles at the same
    millisecond as the timer, later, or never, loses to it. *)
Definition race {P} (timeout : Z) (b : behaviour P) : settled P :=
  match b with
  | Settles t r => if t <? timeout then r else Rejects (Js.Error "Request timeout")
  | Pending => Rejects (Js.Error "Request timeout")
  end.

(** Whether the timer is the first of the two to settle. *)
Definition timer_first {P} (timeout : Z) (b : behaviour P) : bool :=
  match b with
  | Settles t _ => timeout <=? t
  | Pending => true
  end.

Section Loop.

(** The three routes run the same loop; they differ in the candidate
    list, in the timeout of a candidate, in the call, and in which
    errors let the loop [continue]. *)
Context {C P : Type}.
Variable model_of : C -> string.
Variable timeout_of : C -> Z.
Variable call : C -> behaviour P.
Variable retryable : Js.error -> bool.

(** The [for (const modelConfig of models)] loop.  It returns the two
    variables the loop assigns, the response and [lastError]. *)
Fixpoint try_models (models : list C) (lastError : option Js.error)
  : M (option P * option Js.error) :=
  match models with
  | [] => ret (None, lastError)
  | m :: rest =>
      emit (ProviderCall (model_of m)) ;;;
      match race (timeout_of m) (call m) with
      | Fulfils p => ret (Some p, lastError)                 (* break *)
      | Rejects error =>
          if retryable error
          then try_models rest (Some error)                  (* continue *)
          else ret (None, Some error)                        (* break *)
      end
  end.

(** The loop followed by
    [if (!response) throw lastError || new Error("All models failed")]. *)
Definition first_success (truthy : P -> bool) (models : list C) : M P :=
  r <- try_models models None ;;
  let failure := match snd r with
                 | Some e => e
                 | None => Js.Error "All models failed"
                 end in
  match fst r with
  | Some p => if truthy p then ret p else throw failure
  | None => throw failure
  end.

(** The log of attempting the candidates [cs], one after the other. *)
Definition attempts (cs : list C) : list event :=
  map (fun c => ProviderCall (model_of c)) cs.

(** The candidate fails, and its failure lets the loop continue. *)
Definition retried (c : C) : Prop :=
  exists e, race (timeout_of c) (call c) = Rejects e /\ retryable e = true.

End Loop.

Record modelConfig : Type := mkModel {
  model : string;
  timeout : Z
}.

(** [error.message === "Request timeout" || error?.response?.status === 402] *)
Definition timeout_or_credit (error : Js.error) : bool :=
  String.eqb (Js.message error) "Request timeout" || Js.status_is error 402.

(** [error?.response?.status === 402] *)
Definition credit_only (error : Js.error) : bool := Js.status_is error 402.

End Fallback.

(* ================================================================== *)
(** ** routes/image.ts *)
(* ================================================================== *)

Module Image.

Import Fallback.

(** [if (style) full += ...]: an absent or empty option adds nothing. *)
Definition suffix (label : string) (v : option string) : string :=
  match v with
  | Some s => if Js.truthy_string s then label ++ s else EmptyString
  | None => EmptyString
  end.

Definition buildFullPrompt (prompt : string) (style size : option string) : string :=
  Js.trim prompt ++ suffix ", style: " style ++ suffix ", size: " size.

Definition convertToBase64 (E : env) (response : image_payload) : M string :=
  match response with
  | ImgString s => ret s
  | ImgBlob content => ret (base64_encode E content)
  | ImgArrayBuffer content => ret (base64_encode E content)
  | ImgObject (Some data) _ _ _ => ret data
  | ImgObject None (Some (BufferOf buf)) _ _ => ret (base64_encode E buf)
  | ImgObject None (Some (NotABuffer error)) _ _ => throw error
  | ImgObject None None (Some base64) _ => ret base64
  | ImgObject None None None (Some image) => ret image
  | ImgObject None None None None
  | ImgFalsy => throw (Js.Error "Unsupported response format from HuggingFace API")
  end.

Definition truthy (p : image_payload) : bool :=
  match p with
  | ImgFalsy => false
  | ImgString s => Js.truthy_string s
  | _ => true
  end.

Definition models : list modelConfig :=
  [ {| model := "black-forest-labs/FLUX.1-dev"; timeout := 90000 |};
    {| model := "stabilityai/stable-diffusion-xl-base-1.0"; timeout := 75000 |};
    {| model := "runwayml/stable-diffusion-v1-5"; timeout := 60000 |} ].

(** The loop of the handler over a candidate list [ms]. *)
Definition generate (E : env) (fullPrompt : string) (ms : list modelConfig)
  : M image_payload :=
  first_success model timeout (fun m => textToImage E (model m) fullPrompt)
    timeout_or_credit truthy ms.

Definition errorMessage (err : Js.error) : string :=
  if String.eqb (Js.message err) "Request timeout"
  then "Image generation timed out. Please try again."
  else if Js.status_is err 429
  then "Rate limit exceeded. Please try again later."
  else if Js.includes (Js.message err) "Unsupported response format"
  then "Image generation service temporarily unavailable."
  else "Image generation failed".

(** The handler proper, over a candidate list [ms]. *)
Definition handler_with (ms : list modelConfig) (E : env) (req : request) : M response :=
  match auth req with
  | None => ret {| status := 401; payload := ErrorBody "Unauthorized: No user ID" |}
  | Some uid =>
      if negb (Js.truthy_string uid)
      then ret {| status := 401; payload := ErrorBody "Unauthorized: No user ID" |}
      else
        match prompt req with
        | None =>
            ret {| status := 400;
                   payload := ErrorBody "Prompt must be at least 3 characters." |}
        | Some p =>
            if negb (Js.truthy_string p) || (Js.length (Js.trim p) <? 3)
            then ret {| status := 400;
                        payload := ErrorBody "Prompt must be at least 3 characters." |}
            else
              let fullPrompt := buildFullPrompt p (style req) (size req) in
              try_catch
                (imageResponse <- generate E fullPrompt ms ;;
                 imageBase64 <- convertToBase64 E imageResponse ;;
                 if negb (Js.truthy_string imageBase64) || (Js.length imageBase64 =? 0)
                 then throw (Js.Error "Empty or invalid image data received")
                 else
                   Prisma.generationHistory_create E uid "image-generator"
                     (("prompt", p) :: field "style" (style req) ++ field "size" (size req))
                     [("image", imageBase64)] ;;;
                   ret (json_ok (ImageBody imageBase64)))
                (fun err =>
                   ret {| status := 500; payload := ErrorBody (errorMessage err) |})
        end
  end.

Definition handler : env -> request -> M response := handler_with models.

(** The prompts the handler refuses: absent, or shorter than three
    characters once trimmed. *)
Definition too_short (p : option string) : bool :=
  match p with
  | Some s => Js.length (Js.trim s) <? 3
  | None => true
  end.

(** [router.post("/", requireAuth, enforceDailyLimit("image-generator"),
    handler)] *)
Definition post (E : env) : request -> M response :=
  chain [ requireAuth E; RateLimit.enforceDailyLimit E "image-generator" ] (handler E).

End Image.

(* ================================================================== *)
(** ** routes/bgRemove.ts *)
(* ================================================================== *)

(** Modelled from the spec: the size of the canvas that sharp's
    [resize(tw, th, { fit: 'inside', withoutEnlargement: true })]
    produces is computed inside the sharp library, which is not part of
    the repository.  The spec describes it as a bounded canvas, aspect
    preserved, never upscaled: both sides are divided by the larger of
    [w / tw], [h / th] and 1, each rounded to the nearest pixel and kept
    at one pixel at least. *)
Module Sharp.

(** [a / b] rounded to the nearest integer, halves upwards. *)
Definition round_div (a b : Z) : Z := (2 * a + b) / (2 * b).

Definition resize_inside (tw th w h : Z) : Z * Z :=
  if (w <=? tw) && (h <=? th) then (w, h)
  else if h * tw <=? w * th
  then (tw, Z.max 1 (round_div (h * tw) w))
  else (Z.max 1 (round_div (w * th) h), th).

End Sharp.

Module BgRemove.

Import Fallback.

(** [s.replace(/^data:image\/[^;]+;base64,/, '')] *)
Fixpoint after_semicolon (s : string) : option (string * string) :=
  match s with
  | EmptyString => None
  | String c rest =>
      if Ascii.eqb c ";" then Some (EmptyString, rest)
      else match after_semicolon rest with
           | Some (mime, tail) => Some (String c mime, tail)
           | None => None
           end
  end.

Fixpoint drop (n : nat) (s : string) : string :=
  match n, s with
  | O, _ => s
  | S n', String _ rest => drop n' rest
  | S _, EmptyString => EmptyString
  end.

Definition strip_data_uri (s : string) : string :=
  if Js.startsWith "data:image/" s then
    match after_semicolon (drop 11 s) with
    | Some (mime, tail) =>
        if Js.truthy_string mime && Js.startsWith "base64," tail
        then drop 7 tail
        else s
    | None => s
    end
  else s.

(** [text.match(/"([A-Za-z0-9+/=]{100,})"/)]: the first quoted run of at
    least a hundred base64 characters. *)
Definition is_base64_char (c : ascii) : bool :=
  let n := N_of_ascii c in
  ((65 <=? n) && (n <=? 90) || (97 <=? n) && (n <=? 122) || (48 <=? n) && (n <=? 57)
   || (n =? 43) || (n =? 47) || (n =? 61))%N.

Fixpoint base64_run (s : string) : string * string :=
  match s with
  | EmptyString => (EmptyString, EmptyString)
  | String c rest =>
      if is_base64_char c
      then let (run, tail) := base64_run rest in (String c run, tail)
      else (EmptyString, s)
  end.

Fixpoint quoted_base64 (s : string) : option string :=
  match s with
  | EmptyString => None
  | String c rest =>
      if Ascii.eqb c Js.quote then
        let (run, tail) := base64_run rest in
        if (100 <=? Js.length run) && Js.startsWith (String Js.quote EmptyString) tail
        then Some run
        else quoted_base64 rest
      else quoted_base64 rest
  end.

Definition truthy_field (v : option string) : option string :=
  match v with
  | Some s => if Js.truthy_string s then Some s else None
  | None => None
  end.

(** Step 3 of the handler: the mask, as base64 text. *)
Definition extract_mask (E : env) (maskResult : mask_payload) : M string :=
  match maskResult with
  | MaskBlob content => ret (base64_encode E content)
  | MaskString s => ret (strip_data_uri s)
  | MaskObject mask image item0 stringified =>
      match truthy_field mask, truthy_field image, item0 with
      | Some m, _, _ => ret (strip_data_uri m)
      | None, Some i, _ => ret (strip_data_uri i)
      | None, None, Some (ItemString s) =>
          if Js.truthy_string s then ret (strip_data_uri s)
          else match quoted_base64 stringified with
               | Some b => ret b
               | None => throw (Js.Error "Could not extract mask from segmentation result")
               end
      | None, None, Some (ItemObject m i) =>
          match truthy_field m, truthy_field i with
          | Some m', _ => ret (strip_data_uri m')
          | None, Some i' => ret (strip_data_uri i')
          | None, None =>
              throw (Js.Error "Could not extract mask from numeric key response")
          end
      | None, None, None =>
          match quoted_base64 stringified with
          | Some b => ret b
          | None => throw (Js.Error "Could not extract mask from segmentation result")
          end
      end
  | MaskFalsy => throw (Js.Error "Could not extract mask from segmentation result")
  end.

Definition truthy (p : mask_payload) : bool :=
  match p with
  | MaskFalsy => false
  | MaskString s => Js.truthy_string s
  | _ => true
  end.

Definition models : list string :=
  [ "briaai/RMBG-2.0"; "CIDAS/clipseg-rd64-refined"; "rembg/rembg" ].

(** The loop of the handler: every candidate gets 60 seconds, and only a
    402 lets the loop continue. *)
Definition segment (E : env) (image : bytes) (ms : list string) : M mask_payload :=
  first_success (fun m => m) (fun _ => 60000) (fun m => imageSegmentation E m image)
    credit_only truthy ms.

Definition errorMessage (err : Js.error) : string :=
  if String.eqb (Js.message err) "Request timeout"
  then "Image processing timed out. Please try again."
  else if Js.status_is err 429
  then "Rate limit exceeded. Please try again later."
  else "Failed to process image.".

Definition lift {A} (r : Js.error + A) : M A :=
  match r with
  | inl e => throw e
  | inr a => ret a
  end.

(** The size of the canvas of step 5, for an original of [w] by [h]
    pixels. *)
Definition canvas (w h : Z) : Z * Z := Sharp.resize_inside 1024 1024 w h.

Definition handler_with (ms : list string) (E : env) (req : request) : M response :=
  match auth req with
  | None => ret {| status := 401; payload := ErrorBody "Unauthorized. Missing user ID." |}
  | Some uid =>
      if negb (Js.truthy_string uid)
      then ret {| status := 401; payload := ErrorBody "Unauthorized. Missing user ID." |}
      else
        match file req with
        | None => ret {| status := 422; payload := ErrorBody "Image file is required." |}
        | Some f =>
            try_catch
              (compressedBuffer <- lift (sharp_compress E (buffer f)) ;;
               maskResult <- segment E compressedBuffer ms ;;
               maskBase64 <- extract_mask E maskResult ;;
               let originalBuffer := buffer f in
               let maskBuffer := base64_decode E maskBase64 in
               outputBuffer <- lift (sharp_composite E originalBuffer maskBuffer) ;;
               let resultBase64 := base64_encode E outputBuffer in
               Prisma.generationHistory_create E uid "background-remover"
                 [("filename", originalname f)] [("image", resultBase64)] ;;;
               ret (json_ok (ImageBody resultBase64)))
              (fun err =>
                 ret {| status := 500; payload := ErrorBody (errorMessage err) |})
        end
  end.

Definition handler : env -> request -> M response := handler_with models.

(** [router.post("/", requireAuth, enforceDailyLimit("background-remover"),
    upload.single("image"), handler)] *)
Definition post (E : env) : request -> M response :=
  chain [ requireAuth E;
          RateLimit.enforceDailyLimit E "background-remover";
          upload_single ["image/jpeg"; "image/png"] (10 * 1024 * 1024)
            "Only JPG/PNG images are allowed." ]
        (handler E).

End BgRemove.

(* ================================================================== *)
(** ** routes/resume.ts *)
(* ================================================================== *)

Module Resume.

Import Fallback.

Definition models : list modelConfig :=
  [ {| model := "deepseek-ai/DeepSeek-R1-0528"; timeout := 45000 |};
    {| model := "meta-llama/Llama-3.1-8B-Instruct"; timeout := 40000 |};
    {| model := "microsoft/DialoGPT-medium"; timeout := 35000 |} ].

Definition truthy (c : completion) : bool :=
  match c with
  | CompletionFalsy => false
  | Completion _ => true
  end.

Definition analyse (E : env) (resumeText : string) (ms : list modelConfig)
  : M completion :=
  first_success model timeout (fun m => chatCompletion E (model m) resumeText)
    timeout_or_credit truthy ms.

(** [completion.choices?.[0]?.message?.content] *)
Definition first_content (c : completion) : option string :=
  match c with
  | Completion (Some (ch :: _)) => message_content ch
  | _ => None
  end.

(** [... || "No analysis returned."] *)
Definition analysis_of (c : completion) : string :=
  match first_content c with
  | Some s => if Js.truthy_string s then s else "No analysis returned."
  | None => "No analysis returned."
  end.

Definition errorMessage (err : Js.error) : string :=
  if String.eqb (Js.message err) "Request timeout"
  then "Resume analysis timed out. Please try again."
  else if Js.status_is err 429
  then "Rate limit exceeded. Please try again later."
  else "Resume analysis failed. Try again later.".

Definition lift {A} (r : Js.error + A) : M A :=
  match r with
  | inl e => throw e
  | inr a => ret a
  end.

Definition userId_truthy (a : option string) : option string :=
  match a with
  | Some uid => if Js.truthy_string uid then Some uid else None
  | None => None
  end.

Definition handler_with (ms : list modelConfig) (E : env) (req : request) : M response :=
  match file req with
  | None => ret {| status := 400; payload := ErrorBody "📎 No file uploaded." |}
  | Some f =>
      try_catch
        (resumeText <- lift (PdfExtract.extractTextFromPdf E (buffer f)) ;;
         if negb (Js.truthy_string resumeText) || (Js.length resumeText <? 100)
         then ret {| status := 400;
                     payload := ErrorBody
                       "❌ Resume too short or empty. Please upload a valid resume." |}
         else
           completion <- analyse E resumeText ms ;;
           let analysis := analysis_of completion in
           match userId_truthy (auth req) with
           | None => ret {| status := 401;
                            payload := ErrorBody "User ID not found in auth context" |}
           | Some uid =>
               Prisma.generationHistory_create E uid "resume-analyzer"
                 [("filename", originalname f)] [("analysis", analysis)] ;;;
               ret (json_ok (AnalysisBody analysis))
           end)
        (fun err =>
           ret {| status := 500; payload := ErrorBody (errorMessage err) |})
  end.

Definition handler : env -> request -> M response := handler_with models.

(** [router.post("/", requireAuth, enforceDailyLimit("resume-analyzer"),
    upload.single("file"), handler)] *)
Definition post (E : env) : request -> M response :=
  chain [ requireAuth E;
          RateLimit.enforceDailyLimit E "resume-analyzer";
          upload_single ["application/pdf"] (5 * 1024 * 1024)
            "Only PDF files are allowed." ]
        (handler E).

End Resume.

(* ================================================================== *)
(** ** routes/history.ts *)
(* ================================================================== *)

Module History.

(** [orderBy: { createdAt: "desc" }], as a stable insertion sort: rows
    with equal timestamps keep the order of the table. *)
Fixpoint insert_desc (g : GenerationHistory) (rows : list GenerationHistory)
  : list GenerationHistory :=
  match rows with
  | [] => [g]
  | r :: rest =>
      if createdAt r <=? createdAt g then g :: rows
      else r :: insert_desc g rest
  end.

Fixpoint sort_desc (rows : list GenerationHistory) : list GenerationHistory :=
  match rows with
  | [] => []
  | g :: rest => insert_desc g (sort_desc rest)
  end.

(** The rows after (and before) the row whose id is the cursor; a cursor
    that names no row selects nothing. *)
Fixpoint after_cursor (c : string) (rows : list GenerationHistory)
  : list GenerationHistory :=
  match rows with
  | [] => []
  | r :: rest => if String.eqb (id r) c then rest else after_cursor c rest
  end.

Fixpoint before_cursor (c : string) (rows : list GenerationHistory)
  : option (list GenerationHistory) :=
  match rows with
  | [] => None
  | r :: rest =>
      if String.eqb (id r) c then Some []
      else match before_cursor c rest with
           | Some pre => Some (r :: pre)
           | None => None
           end
  end.

Definition last_rows (n : nat) (rows : list GenerationHistory) : list GenerationHistory :=
  skipn (List.length rows - n) rows.

(** [where: { userId }]: an undefined [userId] filters nothing. *)
Definition where_userId (uid : option string) (g : GenerationHistory) : bool :=
  match uid with
  | Some u => String.eqb (userId g) u
  | None => true
  end.

(** Modelled from the spec: the listing is computed by Prisma's
    [findMany], which is not part of the repository.  The spec describes
    it as descending by creation time and cursor-based, the cursor being
    the id of the last row seen: with [cursor] and [skip: 1] the page
    starts after the cursor row and holds up to [take] rows; a negative
    [take] pages backwards from the end (or from the cursor). *)
Definition page (take : Z) (cursor : option string) (sorted : list GenerationHistory)
  : list GenerationHistory :=
  if 0 <=? take then
    firstn (Z.to_nat take)
      (match cursor with
       | Some c => after_cursor c sorted
       | None => sorted
       end)
  else
    last_rows (Z.to_nat (- take))
      (match cursor with
       | Some c => match before_cursor c sorted with Some pre => pre | None => [] end
       | None => sorted
       end).

(** [findMany({ where, orderBy, take, select, cursor?, skip? })]; a
    [take] that is not an integer is refused by the client. *)
Definition findMany (uid : option string) (take : Js.number) (cursor : option string)
  : M (list history_item) :=
  emit (HistoryFindMany (match uid with Some u => u | None => EmptyString end)) ;;;
  match take with
  | Js.Int n =>
      s <- get_db ;;
      ret (map select
             (page n cursor (sort_desc (filter (where_userId uid) (generationHistory s)))))
  | _ => throw (Js.Error "Argument `take`: Invalid value provided. Expected Int.")
  end.

Definition count (uid : option string) : M Z :=
  emit (HistoryCountAll (match uid with Some u => u | None => EmptyString end)) ;;;
  s <- get_db ;;
  ret (Z.of_nat (List.length (filter (where_userId uid) (generationHistory s)))).

(** [Math.min(Number(req.query.limit) || 20, 50)] *)
Definition page_limit (req : request) : Js.number :=
  Js.Math_min (Js.or_default (query_limit req) 20) 50.

(** [if (cursor)]: an empty cursor is no cursor. *)
Definition page_cursor (req : request) : option string :=
  match query_cursor req with
  | Some c => if Js.truthy_string c then Some c else None
  | None => None
  end.

Definition same_length (n : nat) (lim : Js.number) : bool :=
  match lim with
  | Js.Int l => Z.of_nat n =? l
  | _ => false
  end.

Definition handler (E : env) (req : request) : M response :=
  let userId := auth req in
  try_catch
    (let limit := page_limit req in
     let cursor := page_cursor req in
     let page := Js.Math_max (Js.or_default (query_page req) 1) 1 in
     history <- findMany userId limit cursor ;;
     totalCount <- count userId ;;
     let nextCursor := match rev history with
                       | last :: _ => Some (item_id last)
                       | [] => None
                       end in
     ret (json_ok (HistoryBody history
            {| currentPage := page;
               totalCount := totalCount;
               hasNextPage := same_length (List.length history) limit;
               hasPreviousPage := Js.gt page 1;
               nextCursor := nextCursor;
               limit := limit |})))
    (fun err =>
       ret {| status := 500;
              payload := ErrorDetailBody "Failed to fetch history" (Js.message err) |}).

Definition newer_first (a b : GenerationHistory) : Prop :=
  createdAt b <= createdAt a.

(** Newest first. *)
Definition descending (items : list history_item) : Prop :=
  StronglySorted (fun a b => item_createdAt b <= item_createdAt a) items.

(** [router.get("/", requireAuth, handler)] *)
Definition get (E : env) : request -> M response :=
  chain [ requireAuth E ] (handler E).

End History.

(* ================================================================== *)
(** ** routes/history.ts: the usage endpoint *)
(* ================================================================== *)

Module Usage.

(** The file keeps its own copy of the table. *)
Definition FREE_LIMITS : list (string * Z) :=
  [ ("article-generator", 10);
    ("image-generator", 10);
    ("background-remover", 10);
    ("resume-analyzer", 10) ].

(** A limit or a remainder as the endpoint reports it: a number, or the
    text ['Unlimited']. *)
Inductive allowance : Type :=
| Unlimited
| Limited (n : Z).

Record entry : Type := mkEntry {
  entry_feature : string;
  used : Z;
  entry_limit : allowance;
  remaining : allowance;
  entry_isPremium : bool
}.

(** The bodies the endpoint sends.  [resetTime] is kept as the time it
    denotes, in milliseconds, not as its ISO text. *)
Inductive usage_body : Type :=
| UsageBody (usage : list entry) (isPremium : bool) (resetTime : Z)
| UsageError (error : string)
| UsageErrorDetail (error detail : string).

Record usage_response : Type := mkUsageResponse {
  usage_status : Z;
  usage_payload : usage_body
}.

(** One callback of [Object.keys(FREE_LIMITS).map(async (feature) => ...)],
    [limit] being [FREE_LIMITS[feature]]. *)
Definition usage_of (userId : string) (user : User) (since : Z) (ft : string)
    (limit : Z) : M entry :=
  count <- Prisma.generationHistory_count userId ft since ;;
  let remaining := Z.max 0 (limit - count) in
  ret {| entry_feature := ft;
         used := count;
         entry_limit := if isPremium user then Unlimited else Limited limit;
         remaining := if isPremium user then Unlimited else Limited remaining;
         entry_isPremium := isPremium user |}.

(** The callbacks start in the order of the keys. *)
Fixpoint usage_all (userId : string) (user : User) (since : Z)
    (table : list (string * Z)) : M (list entry) :=
  match table with
  | [] => ret []
  | (ft, limit) :: rest =>
      e <- usage_of userId user since ft limit ;;
      es <- usage_all userId user since rest ;;
      ret (e :: es)
  end.

(** The handler.  [findUnique] without an id is refused by the client;
    after [requireAuth] the id is always there. *)
Definition handler (E : env) (req : request) : M usage_response :=
  try_catch
    (match auth req with
     | None => throw (Js.Error "Argument `where` needs at least one of `id` arguments.")
     | Some uid =>
         user <- Prisma.user_findUnique uid ;;
         match user with
         | None => ret {| usage_status := 401;
                          usage_payload := UsageError "User not found." |}
         | Some u =>
             let startOfDay := RateLimit.startOfDay (now E) in
             usage <- usage_all uid u startOfDay FREE_LIMITS ;;
             ret {| usage_status := 200;
                    usage_payload :=
                      UsageBody usage (isPremium u)
                        (startOfDay + 24 * 60 * 60 * 1000) |}
         end
     end)
    (fun err =>
       ret {| usage_status := 500;
              usage_payload := UsageErrorDetail "Failed to fetch usage" (Js.message err) |}).

(** [router.get("/usage", requireAuth, handler)]: the answer of the
    middleware, or that of the handler. *)
Definition get (E : env) (req : request) : M (response + usage_response) :=
  s <- requireAuth E req ;;
  match s with
  | Next req' => r <- handler E req' ;; ret (inr r)
  | Sent r => ret (inl r)
  end.

End Usage.

(* ================================================================== *)
(** ** index.ts: the application *)
(* ================================================================== *)

(** What is thrown out of a route reaches the error handler of the
    application. *)
Definition serve (route : request -> M response) (req : request) (w : world)
  : response * world :=
  match route req w with
  | (Returned r, w') => (r, w')
  | (Thrown error, w') =>
      ({| status := 500;
          payload := InternalErrorBody "Internal server error" (Js.message error) |}, w')
  end.

(** The provider calls in a log. *)
Definition provider_calls (l : list event) : list string :=
  flat_map (fun ev => match ev with ProviderCall m => [m] | _ => [] end) l.

(** A log of provider calls and nothing else. *)
Definition provider_only (evs : list event) : Prop :=
  Forall (fun ev => exists m, ev = ProviderCall m) evs.

(** The writes to the history in a log. *)
Definition writes (l : list event) : list event :=
  filter (fun ev => match ev with HistoryCreate _ _ => true | _ => false end) l.


(** The run of a generation handler from [w]: the handler answers; a
    200 comes with exactly one new history row, owned by the signed-in
    user and carrying under [key] the text that is sent (a text that
    satisfies [good]); any other status leaves the history as it was.
    The users are not touched either way. *)
Definition records_exactly_on_success (E : env) (req : request) (ft key : string)
    (good : string -> Prop) (run : outcome response * world) (w : world) : Prop :=
  exists r w',
    run = (Returned r, w') /\
    users (db w') = users (db w) /\
    (status r = 200 ->
       exists uid text i,
         auth req = Some uid /\
         (payload r = ImageBody text \/ payload r = AnalysisBody text) /\
         good text /\
         generationHistory (db w')
         = (generationHistory (db w) ++
            [ {| id := fresh_id E; userId := uid; feature := ft; input := i;
                 output := [(key, text)]; createdAt := insert_time E |} ])%list) /\
    (status r <> 200 -> generationHistory (db w') = generationHistory (db w)).

(** The run of a generation handler from [w], seen by the quota check:
    today's count of [uid] for [ft] is one more after a 200, and every
    other count (another user, another feature, another status) is what
    it was. *)
Definition counts_one_more (E : env) (uid ft : string)
    (run : outcome response * world) (w : world) : Prop :=
  exists r w',
    run = (Returned r, w') /\
    forall uid' ft',
      Prisma.count_rows uid' ft' (RateLimit.startOfDay (now E))
        (generationHistory (db w'))
      = Prisma.count_rows uid' ft' (RateLimit.startOfDay (now E))
          (generationHistory (db w))
        + (if (status r =? 200) && String.eqb uid' uid && String.eqb ft' ft
           then 1 else 0).

(** The world [w] with another history. *)
Definition with_history (w : world) (rows : list GenerationHistory) : world :=
  {| db := {| users := users (db w); generationHistory := rows |}; log := log w |}.

(** Whether the store holds [uid] as a premium user. *)
Definition is_premium (uid : string) (s : store) : bool :=
  match find (fun u => String.eqb (user_id u) uid) (users s) with
  | Some u => isPremium u
  | None => false
  end.

(** The run of a generation handler, seen by a later listing [lreq] of
    the same user: after a 200 the listing begins with the row the
    handler has written. *)
Definition heads_the_listing (E : env) (lreq : request) (ft : string)
    (run : outcome response * world) : Prop :=
  forall r w',
    run = (Returned r, w') ->
    status r = 200 ->
    exists i o rest pg,
      fst (History.handler E lreq w')
      = Returned (json_ok (HistoryBody
                    ({| item_id := fresh_id E; item_feature := ft; item_input := i;
                        item_output := o; item_createdAt := insert_time E |} :: rest)
                    pg)).

(** A middleware that lets a request through as it is or throws, and
    leaves the world alone either way. *)
Definition transparent (mw : request -> M step) : Prop :=
  forall req w,
    mw req w = (Returned (Next req), w) \/ exists e, mw req w = (Thrown e, w).

(** The entry of the usage endpoint for one line of the table, over the
    history [rows]. *)
Definition entry_for (uid : string) (u : User) (since : Z)
    (rows : list GenerationHistory) (kv : string * Z) : Usage.entry :=
  let count := Prisma.count_rows uid (fst kv) since rows in
  {| Usage.entry_feature := fst kv;
     Usage.used := count;
     Usage.entry_limit := if isPremium u then Usage.Unlimited else Usage.Limited (snd kv);
     Usage.remaining := if isPremium u then Usage.Unlimited
                        else Usage.Limited (Z.max 0 (snd kv - count));
     Usage.entry_isPremium := isPremium u |}.

(** The rows of a user, and the pagination data of a page of [items]
    under the limit [k]. *)
Definition owned_rows (uid : string) (w : world) : list GenerationHistory :=
  filter (fun g => String.eqb (userId g) uid) (generationHistory (db w)).

Definition listed (items : list history_item) (k : Z) (count : Z)
    (req : request) : pagination :=
  {| currentPage := Js.Math_max (Js.or_default (query_page req) 1) 1;
     totalCount := count;
     hasNextPage := Z.of_nat (List.length items) =? k;
     hasPreviousPage := Js.gt (Js.Math_max (Js.or_default (query_page req) 1) 1) 1;
     nextCursor := match rev items with
                   | last :: _ => Some (item_id last)
                   | [] => None
                   end;
     limit := Js.Int k |}.

(** The store queries about usage in a log. *)
Definition usage_counts (l : list event) : list event :=
  filter (fun ev => match ev with HistoryCount _ _ _ => true | _ => false end) l.

(* ================================================================== *)
(** ** Concrete scenarios *)
(* ================================================================== *)

Module Scenario.

Definition row (i u ft : string) (t : Z) : GenerationHistory :=
  {| id := i; userId := u; feature := ft; input := []; output := [];
     createdAt := t |}.

(** 2025-07-11, 01:00 UTC; the day starts at 1752192000000. *)
Definition one_am : Z := 1752195600000.

(** An environment in which no provider ever answers. *)
Definition quiet : env :=
  {| now := one_am;
     insert_time := one_am + 60000;
     fresh_id := "gen_new";
     create_failure := None;
     verifyToken := fun _ => inr ("user_1", Some "u1@example.org");
     textToImage := fun _ _ => Pending;
     imageSegmentation := fun _ _ => Pending;
     chatCompletion := fun _ _ => Pending;
     sharp_compress := fun b => inr b;
     sharp_composite := fun b _ => inr b;
     base64_encode := fun _ => "QUJD";
     base64_decode := fun _ => [];
     getDocument := fun _ => inl (Js.Error "Invalid PDF structure") |}.

Definition blank : request :=
  {| authorization := Some "Bearer token"; auth := None;
     prompt := None; style := None; size := None; file := None;
     query_limit := Js.NaN; query_cursor := None; query_page := Js.NaN |}.

Definition with_prompt (p : string) : request :=
  {| authorization := Some "Bearer token"; auth := None;
     prompt := Some p; style := None; size := None; file := None;
     query_limit := Js.NaN; query_cursor := None; query_page := Js.NaN |}.

Definition authed (uid : string) (req : request) : request := with_auth req uid.

Definition free_user : User :=
  {| user_id := "user_1"; email := "u1@example.org"; isPremium := false |}.

Definition premium_user : User :=
  {| user_id := "user_1"; email := "u1@example.org"; isPremium := true |}.

Definition ten_images_today : list GenerationHistory :=
  map (fun i => row "gen" "user_1" "image-generator" (1752192000000 + i))
      [1; 2; 3; 4; 5; 6; 7; 8; 9; 10].

Definition world_of (u : User) (rows : list GenerationHistory) : world :=
  {| db := {| users := [u]; generationHistory := rows |}; log := [] |}.

(** Environments that differ from [quiet] in one collaborator. *)
Definition answering_images (f : string -> string -> behaviour image_payload)
    (failure : option Js.error) : env :=
  {| now := one_am;
     insert_time := one_am + 60000;
     fresh_id := "gen_new";
     create_failure := failure;
     verifyToken := fun _ => inr ("user_1", Some "u1@example.org");
     textToImage := f;
     imageSegmentation := fun _ _ => Pending;
     chatCompletion := fun _ _ => Pending;
     sharp_compress := fun b => inr b;
     sharp_composite := fun b _ => inr b;
     base64_encode := fun _ => "QUJD";
     base64_decode := fun _ => [];
     getDocument := fun _ => inl (Js.Error "Invalid PDF structure") |}.

Definition answering_masks (f : string -> bytes -> behaviour mask_payload)
    (failure : option Js.error) : env :=
  {| now := one_am;
     insert_time := one_am + 60000;
     fresh_id := "gen_new";
     create_failure := failure;
     verifyToken := fun _ => inr ("user_1", Some "u1@example.org");
     textToImage := fun _ _ => Pending;
     imageSegmentation := f;
     chatCompletion := fun _ _ => Pending;
     sharp_compress := fun b => inr b;
     sharp_composite := fun b _ => inr b;
     base64_encode := fun _ => "QUJD";
     base64_decode := fun _ => [];
     getDocument := fun _ => inl (Js.Error "Invalid PDF structure") |}.

Definition answering_chats (f : string -> string -> behaviour completion)
    (text : string) : env :=
  {| now := one_am;
     insert_time := one_am + 60000;
     fresh_id := "gen_new";
     create_failure := None;
     verifyToken := fun _ => inr ("user_1", Some "u1@example.org");
     textToImage := fun _ _ => Pending;
     imageSegmentation := fun _ _ => Pending;
     chatCompletion := f;
     sharp_compress := fun b => inr b;
     sharp_composite := fun b _ => inr b;
     base64_encode := fun _ => "QUJD";
     base64_decode := fun _ => [];
     getDocument := fun _ => inr [Some [text]] |}.

Definition with_file (name mime : string) : request :=
  {| authorization := Some "Bearer token"; auth := None;
     prompt := None; style := None; size := None;
     file := Some {| originalname := name; mimetype := mime; buffer := [] |};
     query_limit := Js.NaN; query_cursor := None; query_page := Js.NaN |}.

Definition listing (lim : Js.number) (cursor : option string) : request :=
  {| authorization := Some "Bearer token"; auth := None;
     prompt := None; style := None; size := None; file := None;
     query_limit := lim; query_cursor := cursor; query_page := Js.NaN |}.

(** The first segmentation model never answers; the others answer a
    mask within a tenth of a second. *)
Definition first_mask_hangs : env :=
  answering_masks
    (fun m _ => if String.eqb m "briaai/RMBG-2.0" then Pending
                else Settles 100 (Fulfils (MaskString "iVBORw0KGgo=")))
    None.

(** The first image model is out of credit (402), the second refuses
    the request with a 401, the third would answer an image after two
    seconds. *)
Definition out_of_credit : Js.error :=
  {| Js.message := "Payment required"; Js.response_status := Some 402 |}.

Definition invalid_credentials : Js.error :=
  {| Js.message := "Invalid credentials"; Js.response_status := Some 401 |}.

Definition second_image_fatal : env :=
  answering_images
    (fun m _ => if String.eqb m "black-forest-labs/FLUX.1-dev"
                then Settles 300 (Rejects out_of_credit)
                else if String.eqb m "stabilityai/stable-diffusion-xl-base-1.0"
                then Settles 300 (Rejects invalid_credentials)
                else Settles 2000 (Fulfils (ImgString "iVBORw0KGgo=")))
    None.


(** A resume of a hundred characters, and a model that answers a
    completion without choices. *)
Definition resume_text : string :=
  "Jane Doe. Software engineer, ten years of experience with distributed systems, databases and compilers.".

Definition no_choices : env :=
  answering_chats (fun _ _ => Settles 900 (Fulfils (Completion None))) resume_text.

Definition three_rows : list GenerationHistory :=
  [ row "g1" "user_1" "image-generator" 1752192000100;
    row "g2" "user_1" "resume-analyzer" 1752192000300;
    row "g3" "user_1" "image-generator" 1752192000200 ].

End Scenario.

(** Further scenarios. *)
Module Cases.

Import Scenario.

Definition flux : Fallback.modelConfig :=
  {| Fallback.model := "black-forest-labs/FLUX.1-dev"; Fallback.timeout := 90000 |}.

Definition sdxl : Fallback.modelConfig :=
  {| Fallback.model := "stabilityai/stable-diffusion-xl-base-1.0";
     Fallback.timeout := 75000 |}.

Definition sd15 : Fallback.modelConfig :=
  {| Fallback.model := "runwayml/stable-diffusion-v1-5"; Fallback.timeout := 60000 |}.

(** The first image model is out of credit, the others answer an image
    after two seconds. *)
Definition first_out_of_credit : env :=
  answering_images
    (fun m _ => if String.eqb m "black-forest-labs/FLUX.1-dev"
                then Settles 300 (Rejects out_of_credit)
                else Settles 2000 (Fulfils (ImgString "iVBORw0KGgo=")))
    None.

(** The first image model is out of credit, the second answers an empty
    string. *)
Definition empty_answer : env :=
  answering_images
    (fun m _ => if String.eqb m "black-forest-labs/FLUX.1-dev"
                then Settles 300 (Rejects out_of_credit)
                else Settles 100 (Fulfils (ImgString EmptyString)))
    None.

(** Every image model answers an image after two seconds. *)
Definition images_answer : env :=
  answering_images (fun _ _ => Settles 2000 (Fulfils (ImgString "iVBORw0KGgo="))) None.

Definition nine_images_today : list GenerationHistory :=
  map (fun i => row "gen" "user_1" "image-generator" (1752192000000 + i))
      [1; 2; 3; 4; 5; 6; 7; 8; 9].

Definition yesterday_and_others : list GenerationHistory :=
  [ row "old" "user_1" "image-generator" 1752191999999;
    row "other" "user_2" "image-generator" 1752192000005;
    row "text" "user_1" "article-generator" 1752192000006 ].

Definition five_rows : list GenerationHistory :=
  [ row "g1" "user_1" "image-generator" 1752192000100;
    row "g2" "user_1" "resume-analyzer" 1752192000500;
    row "h1" "user_2" "image-generator" 1752192000450;
    row "g3" "user_1" "image-generator" 1752192000300;
    row "g4" "user_1" "article-generator" 1752192000400 ].

(** A document of two pages, the second of which cannot be read. *)
Definition two_pages : env :=
  {| now := one_am;
     insert_time := one_am + 60000;
     fresh_id := "gen_new";
     create_failure := None;
     verifyToken := fun _ => inr ("user_1", Some "u1@example.org");
     textToImage := fun _ _ => Pending;
     imageSegmentation := fun _ _ => Pending;
     chatCompletion := fun _ _ => Pending;
     sharp_compress := fun b => inr b;
     sharp_composite := fun b _ => inr b;
     base64_encode := fun _ => "QUJD";
     base64_decode := fun _ => [];
     getDocument := fun _ => inr [Some ["  Jane"; "Doe "]; None] |}.

(** A serialised segmentation answer [{"label":"<mask>"}] whose only
    long text is a mask of 104 base64 characters. *)
Definition long_mask : string :=
  "iVBORw0KGgoAAAANSUhEUgAAAAEAAAABCAQAAAC1HAwCAAAAC0lEQVR42mNkYAAAAAYAAjCB0C8AAAAASUVORK5CYIIAAAAAAAAAAAAAAAAA".

Definition serialised_answer : string :=
  "{" ++ String Js.quote ("label" ++ String Js.quote
    (":" ++ String Js.quote (long_mask ++ String Js.quote "}"))).

Definition with_upload (mime : string) : request :=
  with_auth (with_file "upload.bin" mime) "user_1".

End Cases.

(* ================================================================== *)
(** ** The quota check *)
(* ================================================================== *)

Lemma startOfDay_bounds (t : Z) :
  RateLimit.startOfDay t <= t < RateLimit.startOfDay t + 86400000 /\
  RateLimit.startOfDay t mod 86400000 = 0.
Proof.
  unfold RateLimit.startOfDay.
  pose proof (Z.mod_pos_bound t 86400000 ltac:(lia)) as Hb.
  split; [lia|].
  rewrite Zminus_mod_idemp_r, Z.sub_diag. reflexivity.
Qed.

Lemma enforceDailyLimit_premium (E : env) (ft : string) (req : request)
    (uid : string) (u : User) (w : world) :
  auth req = Some uid ->
  find (fun x => String.eqb (user_id x) uid) (users (db w)) = Some u ->
  isPremium u = true ->
  RateLimit.enforceDailyLimit E ft req w
  = (Returned (Next req), logged w [UserFindUnique uid]).
Proof.
  intros Hauth Hfind Hprem.
  unfold RateLimit.enforceDailyLimit. rewrite Hauth.
  unfold bind, Prisma.user_findUnique, bind, emit, get_db, ret. simpl.
  rewrite Hfind, Hprem. reflexivity.
Qed.

Lemma enforceDailyLimit_free (E : env) (ft : string) (req : request)
    (uid : string) (u : User) (w : world) :
  auth req = Some uid ->
  find (fun x => String.eqb (user_id x) uid) (users (db w)) = Some u ->
  isPremium u = false ->
  let since := RateLimit.startOfDay (now E) in
  let used := Prisma.count_rows uid ft since (generationHistory (db w)) in
  RateLimit.enforceDailyLimit E ft req w
  = (Returned
       (if RateLimit.reached used (RateLimit.limit_for ft)
        then Sent {| status := 429;
                     payload := ErrorBody
                       (RateLimit.limit_message (RateLimit.limit_for ft) ft) |}
        else Next req),
     logged w [UserFindUnique uid; HistoryCount uid ft since]).
Proof.
  intros Hauth Hfind Hprem since used.
  unfold RateLimit.enforceDailyLimit. rewrite Hauth.
  unfold bind, Prisma.user_findUnique, Prisma.generationHistory_count,
    bind, emit, get_db, ret. simpl.
  rewrite Hfind, Hprem. simpl.
  fold since. fold used. unfold logged.
  rewrite <- app_assoc. simpl.
  destruct (RateLimit.reached used (RateLimit.limit_for ft)); reflexivity.
Qed.

(** C4.  A premium user is admitted whatever the history holds: the
    middleware looks the user up, calls [next()], and never asks the
    store for a usage count. *)
Theorem premium_always_admitted (E : env) (ft : string) (req : request)
    (uid : string) (u : User) (w : world) :
  auth req = Some uid ->
  find (fun x => String.eqb (user_id x) uid) (users (db w)) = Some u ->
  isPremium u = true ->
  RateLimit.enforceDailyLimit E ft req w
  = (Returned (Next req), logged w [UserFindUnique uid]) /\
  usage_counts (log (snd (RateLimit.enforceDailyLimit E ft req w)))
  = usage_counts (log w).
Proof.
  intros Hauth Hfind Hprem.
  rewrite (enforceDailyLimit_premium E ft req uid u w Hauth Hfind Hprem).
  split; [reflexivity|].
  simpl. unfold usage_counts. rewrite filter_app. simpl. apply app_nil_r.
Qed.

Lemma premium_always_admitted_witness :
  RateLimit.enforceDailyLimit Scenario.quiet "image-generator"
    (Scenario.authed "user_1" Scenario.blank)
    (Scenario.world_of Scenario.premium_user Scenario.ten_images_today)
  = (Returned (Next (Scenario.authed "user_1" Scenario.blank)),
     logged (Scenario.world_of Scenario.premium_user Scenario.ten_images_today)
       [UserFindUnique "user_1"]).
Proof.
  apply (premium_always_admitted Scenario.quiet "image-generator"
           (Scenario.authed "user_1" Scenario.blank) "user_1"
           Scenario.premium_user); reflexivity.
Defined.

(** C3.  A free user is admitted exactly when today's count for the
    feature is below the feature's limit; at the limit the middleware
    answers 429 itself, so that whatever follows it in the route -- the
    handler and its provider calls -- does not run. *)
Theorem quota_admits_iff_below_limit (E : env) (ft : string) (req : request)
    (uid : string) (u : User) (w : world) (n : Z) :
  auth req = Some uid ->
  find (fun x => String.eqb (user_id x) uid) (users (db w)) = Some u ->
  isPremium u = false ->
  RateLimit.limit_for ft = RateLimit.Number n ->
  let since := RateLimit.startOfDay (now E) in
  let used := Prisma.count_rows uid ft since (generationHistory (db w)) in
  (fst (RateLimit.enforceDailyLimit E ft req w) = Returned (Next req) <-> used < n) /\
  (n <= used ->
   forall (rest : list (request -> M step)) (handler : request -> M response),
     chain (RateLimit.enforceDailyLimit E ft :: rest) handler req w
     = (Returned {| status := 429;
                    payload := ErrorBody
                      (RateLimit.limit_message (RateLimit.Number n) ft) |},
        logged w [UserFindUnique uid; HistoryCount uid ft since])).
Proof.
  intros Hauth Hfind Hprem Hlim since used.
  pose proof (enforceDailyLimit_free E ft req uid u w Hauth Hfind Hprem) as Hrun.
  cbv zeta in Hrun. fold since in Hrun. fold used in Hrun.
  rewrite Hlim in Hrun. simpl RateLimit.reached in Hrun.
  split.
  - rewrite Hrun. simpl. destruct (Z.leb_spec n used) as [Hle|Hgt].
    + split; [discriminate | lia].
    + split; [lia | reflexivity].
  - intros Hle rest handler. simpl. unfold bind. rewrite Hrun.
    destruct (Z.leb_spec n used); [reflexivity | lia].
Qed.

Lemma quota_admits_iff_below_limit_witness :
  chain [ RateLimit.enforceDailyLimit Scenario.quiet "image-generator" ]
    (Image.handler Scenario.quiet)
    (Scenario.authed "user_1" (Scenario.with_prompt "a red fox"))
    (Scenario.world_of Scenario.free_user Scenario.ten_images_today)
  = (Returned {| status := 429;
                 payload := ErrorBody
                   (RateLimit.limit_message (RateLimit.Number 10) "image-generator") |},
     logged (Scenario.world_of Scenario.free_user Scenario.ten_images_today)
       [UserFindUnique "user_1";
        HistoryCount "user_1" "image-generator" 1752192000000]).
Proof.
  apply (proj2 (quota_admits_iff_below_limit Scenario.quiet "image-generator"
                  (Scenario.authed "user_1" (Scenario.with_prompt "a red fox"))
                  "user_1" Scenario.free_user
                  (Scenario.world_of Scenario.free_user Scenario.ten_images_today)
                  10 eq_refl eq_refl eq_refl eq_refl)).
  vm_compute. discriminate.
Defined.

(* ------------------------------------------------------------------ *)
(** *** The limit table *)

Lemma own_not_in (ft : string) (table : list (string * Z)) :
  ~ In ft (map fst table) -> RateLimit.own ft table = None.
Proof.
  induction table as [|[k v] rest IH]; simpl; intros Hnot; [reflexivity|].
  destruct (String.eqb_spec k ft) as [->|Hne].
  - exfalso. apply Hnot. now left.
  - apply IH. intros Hin. apply Hnot. now right.
Qed.

Lemma existsb_eqb_not_in (ft : string) (keys : list string) :
  ~ In ft keys -> existsb (String.eqb ft) keys = false.
Proof.
  induction keys as [|k rest IH]; simpl; intros Hnot; [reflexivity|].
  destruct (String.eqb_spec ft k) as [->|Hne].
  - exfalso. apply Hnot. now left.
  - apply IH. intros Hin. apply Hnot. now right.
Qed.

(** C5, as the code has it.  Every entry of the table is the limit of
    its feature (10 for each of the four), and a feature name that the
    table does not list, and that is not the name of a member the table
    object inherits from [Object.prototype] either, has the limit 0, not
    10: every request of a free user for such a feature is refused with
    429, whatever the history holds. *)
Theorem limit_is_table_entry_or_zero (ft : string) :
  ~ In ft (map fst RateLimit.FREE_LIMITS) ->
  ~ In ft RateLimit.Object_prototype_keys ->
  Forall (fun kv => RateLimit.limit_for (fst kv) = RateLimit.Number (snd kv))
         RateLimit.FREE_LIMITS /\
  Forall (fun kv => snd kv = 10) RateLimit.FREE_LIMITS /\
  RateLimit.limit_for ft = RateLimit.Number 0 /\
  (forall (E : env) (req : request) (uid : string) (u : User) (w : world),
     auth req = Some uid ->
     find (fun x => String.eqb (user_id x) uid) (users (db w)) = Some u ->
     isPremium u = false ->
     fst (RateLimit.enforceDailyLimit E ft req w)
     = Returned (Sent {| status := 429;
                         payload := ErrorBody
                           (RateLimit.limit_message (RateLimit.Number 0) ft) |})).
Proof.
  intros Hown Hproto.
  assert (RateLimit.limit_for ft = RateLimit.Number 0) as Hzero.
  { unfold RateLimit.limit_for, RateLimit.lookup.
    rewrite (own_not_in ft _ Hown), (existsb_eqb_not_in ft _ Hproto).
    reflexivity. }
  split; [repeat constructor|]. split; [repeat constructor|].
  split; [exact Hzero|].
  intros E req uid u w Hauth Hfind Hfree.
  rewrite (enforceDailyLimit_free E ft req uid u w Hauth Hfind Hfree).
  cbn [fst]. rewrite Hzero. cbn [RateLimit.reached].
  assert ((0 <=? Prisma.count_rows uid ft (RateLimit.startOfDay (now E))
                   (generationHistory (db w))) = true) as ->.
  { apply Z.leb_le. unfold Prisma.count_rows. lia. }
  reflexivity.
Qed.

Lemma not_in_by_eqb (ft : string) (keys : list string) :
  existsb (String.eqb ft) keys = false -> ~ In ft keys.
Proof.
  intros Hex Hin.
  assert (existsb (String.eqb ft) keys = true) as Htrue.
  { apply existsb_exists. exists ft. split; [exact Hin | apply String.eqb_refl]. }
  rewrite Hex in Htrue. discriminate.
Qed.

Lemma limit_is_table_entry_or_zero_witness :
  RateLimit.limit_for "video-generator" = RateLimit.Number 0 /\
  fst (RateLimit.enforceDailyLimit Scenario.quiet "video-generator"
         (Scenario.authed "user_1" Scenario.blank)
         (Scenario.world_of Scenario.free_user Scenario.ten_images_today))
  = Returned (Sent {| status := 429;
                      payload := ErrorBody
                        (RateLimit.limit_message (RateLimit.Number 0)
                           "video-generator") |}).
Proof.
  destruct (limit_is_table_entry_or_zero "video-generator"
              ltac:(apply not_in_by_eqb; reflexivity)
              ltac:(apply not_in_by_eqb; reflexivity))
    as [_ [_ [Hzero Hrefused]]].
  split; [exact Hzero|].
  apply (Hrefused Scenario.quiet (Scenario.authed "user_1" Scenario.blank)
           "user_1" Scenario.free_user
           (Scenario.world_of Scenario.free_user Scenario.ten_images_today)
           eq_refl eq_refl eq_refl).
Defined.

(** C5, as the spec has it, fails: the feature ["video-generator"] has
    no entry in the table, its limit is 0 and not 10, and a free user
    who has used nothing today is refused. *)
Lemma default_limit_is_not_ten :
  RateLimit.own "video-generator" RateLimit.FREE_LIMITS = None /\
  RateLimit.limit_for "video-generator" <> RateLimit.Number 10 /\
  fst (RateLimit.enforceDailyLimit Scenario.quiet "video-generator"
         (Scenario.authed "user_1" Scenario.blank)
         (Scenario.world_of Scenario.free_user []))
  = Returned (Sent {| status := 429;
                      payload := ErrorBody
                        "Free limit of 0 per day reached for video-generator. Upgrade to Premium for unlimited access." |}).
Proof.
  split; [reflexivity|]. split; [discriminate|]. reflexivity.
Qed.

(* ================================================================== *)
(** ** The fallback loop *)
(* ================================================================== *)

Section LoopFacts.

Import Fallback.

Context {C P : Type}.
Variable model_of : C -> string.
Variable timeout_of : C -> Z.
Variable call : C -> behaviour P.
Variable retryable : Js.error -> bool.

Lemma race_timer_first (t : Z) (b : behaviour P) :
  timer_first t b = true -> race t b = Rejects (Js.Error "Request timeout").
Proof.
  destruct b as [after r|]; simpl; [|reflexivity].
  intros Hle. apply Z.leb_le in Hle.
  destruct (Z.ltb_spec after t); [lia | reflexivity].
Qed.

Lemma try_models_step_retry (c : C) (rest : list C) (e : Js.error)
    (lastError : option Js.error) (w : world) :
  race (timeout_of c) (call c) = Rejects e ->
  retryable e = true ->
  try_models model_of timeout_of call retryable (c :: rest) lastError w
  = try_models model_of timeout_of call retryable rest (Some e)
      (logged w [ProviderCall (model_of c)]).
Proof.
  intros Hrace Hretry. simpl. unfold bind, emit. simpl.
  rewrite Hrace, Hretry. reflexivity.
Qed.

Lemma try_models_step_fatal (c : C) (rest : list C) (e : Js.error)
    (lastError : option Js.error) (w : world) :
  race (timeout_of c) (call c) = Rejects e ->
  retryable e = false ->
  try_models model_of timeout_of call retryable (c :: rest) lastError w
  = (Returned (None, Some e), logged w [ProviderCall (model_of c)]).
Proof.
  intros Hrace Hfatal. simpl. unfold bind, emit. simpl.
  rewrite Hrace, Hfatal. reflexivity.
Qed.

Lemma logged_logged (w : world) (a b : list event) :
  logged (logged w a) b = logged w (a ++ b).
Proof. unfold logged. simpl. now rewrite app_assoc. Qed.

(** A run of retried candidates is walked through to its end. *)
Lemma try_models_retried_prefix (pre rest : list C) :
  Forall (retried timeout_of call retryable) pre ->
  forall (lastError : option Js.error) (w : world),
  exists lastError',
    try_models model_of timeout_of call retryable (pre ++ rest) lastError w
    = try_models model_of timeout_of call retryable rest lastError'
        (logged w (attempts model_of pre)).
Proof.
  induction 1 as [|c pre [e [Hrace Hretry]] _ IH]; intros lastError w.
  - exists lastError. simpl. unfold logged. rewrite app_nil_r.
    now destruct w.
  - destruct (IH (Some e) (logged w [ProviderCall (model_of c)])) as [l' Hl'].
    exists l'. simpl app.
    rewrite (try_models_step_retry c (pre ++ rest) e lastError w Hrace Hretry).
    rewrite Hl', logged_logged. reflexivity.
Qed.

(** C2.  When a candidate fails with an error that is not retryable,
    after any number of retried candidates, the loop ends there: the
    candidates attempted are those up to the failing one and none
    after it, and what is thrown is the error of that candidate,
    whatever the later candidates would have answered. *)
Theorem fatal_error_stops_iteration (truthy : P -> bool)
    (pre : list C) (c : C) (post : list C) (e : Js.error) (w : world) :
  Forall (retried timeout_of call retryable) pre ->
  race (timeout_of c) (call c) = Rejects e ->
  retryable e = false ->
  first_success model_of timeout_of call retryable truthy (pre ++ c :: post) w
  = (Thrown e, logged w (attempts model_of (pre ++ [c]))).
Proof.
  intros Hpre Hrace Hfatal.
  unfold first_success, bind.
  destruct (try_models_retried_prefix pre (c :: post) Hpre None w) as [l' ->].
  rewrite (try_models_step_fatal c post e l' _ Hrace Hfatal).
  simpl. unfold throw. rewrite logged_logged.
  unfold attempts. rewrite map_app. reflexivity.
Qed.

End LoopFacts.

Lemma fatal_error_stops_iteration_witness :
  Image.generate Scenario.second_image_fatal "a red fox" Image.models
    (Scenario.world_of Scenario.free_user [])
  = (Thrown Scenario.invalid_credentials,
     logged (Scenario.world_of Scenario.free_user [])
       [ProviderCall "black-forest-labs/FLUX.1-dev";
        ProviderCall "stabilityai/stable-diffusion-xl-base-1.0"]).
Proof.
  apply (fatal_error_stops_iteration Fallback.model Fallback.timeout
           (fun m => textToImage Scenario.second_image_fatal (Fallback.model m) "a red fox")
           Fallback.timeout_or_credit Image.truthy
           [ {| Fallback.model := "black-forest-labs/FLUX.1-dev";
                Fallback.timeout := 90000 |} ]
           {| Fallback.model := "stabilityai/stable-diffusion-xl-base-1.0";
              Fallback.timeout := 75000 |}
           [ {| Fallback.model := "runwayml/stable-diffusion-v1-5";
                Fallback.timeout := 60000 |} ]
           Scenario.invalid_credentials).
  - constructor; [|constructor].
    exists Scenario.out_of_credit. split; reflexivity.
  - reflexivity.
  - reflexivity.
Defined.

(** C1, as the code has it.  In the image and the resume loop a
    candidate whose timer fires first is passed over: the loop goes on
    with the candidates that remain, remembering the timeout as the last
    error.  In the background-removal loop the same timeout ends the
    loop, with the remaining candidates untried. *)
Theorem timeout_advances_in_image_and_resume (E : env)
    (fullPrompt resumeText : string) (image : bytes)
    (m : Fallback.modelConfig) (rest : list Fallback.modelConfig)
    (s : string) (others : list string)
    (lastError : option Js.error) (w : world) :
  (Fallback.timer_first (Fallback.timeout m)
     (textToImage E (Fallback.model m) fullPrompt) = true ->
   Fallback.try_models Fallback.model Fallback.timeout
     (fun c => textToImage E (Fallback.model c) fullPrompt)
     Fallback.timeout_or_credit (m :: rest) lastError w
   = Fallback.try_models Fallback.model Fallback.timeout
       (fun c => textToImage E (Fallback.model c) fullPrompt)
       Fallback.timeout_or_credit rest (Some (Js.Error "Request timeout"))
       (logged w [ProviderCall (Fallback.model m)]))
  /\
  (Fallback.timer_first (Fallback.timeout m)
     (chatCompletion E (Fallback.model m) resumeText) = true ->
   Fallback.try_models Fallback.model Fallback.timeout
     (fun c => chatCompletion E (Fallback.model c) resumeText)
     Fallback.timeout_or_credit (m :: rest) lastError w
   = Fallback.try_models Fallback.model Fallback.timeout
       (fun c => chatCompletion E (Fallback.model c) resumeText)
       Fallback.timeout_or_credit rest (Some (Js.Error "Request timeout"))
       (logged w [ProviderCall (Fallback.model m)]))
  /\
  (Fallback.timer_first 60000 (imageSegmentation E s image) = true ->
   Fallback.try_models (fun c => c) (fun _ => 60000)
     (fun c => imageSegmentation E c image)
     Fallback.credit_only (s :: others) lastError w
   = (Returned (None, Some (Js.Error "Request timeout")),
      logged w [ProviderCall s])).
Proof.
  repeat split; intros Hfirst; apply race_timer_first in Hfirst.
  - now apply try_models_step_retry.
  - now apply try_models_step_retry.
  - now apply try_models_step_fatal.
Qed.

Lemma timeout_advances_in_image_and_resume_witness :
  Fallback.try_models Fallback.model Fallback.timeout
    (fun c => textToImage Scenario.quiet (Fallback.model c) "a red fox")
    Fallback.timeout_or_credit Image.models None
    (Scenario.world_of Scenario.free_user [])
  = Fallback.try_models Fallback.model Fallback.timeout
      (fun c => textToImage Scenario.quiet (Fallback.model c) "a red fox")
      Fallback.timeout_or_credit (tl Image.models)
      (Some (Js.Error "Request timeout"))
      (logged (Scenario.world_of Scenario.free_user [])
         [ProviderCall "black-forest-labs/FLUX.1-dev"]).
Proof.
  apply (proj1 (timeout_advances_in_image_and_resume Scenario.quiet
                  "a red fox" Scenario.resume_text []
                  {| Fallback.model := "black-forest-labs/FLUX.1-dev";
                     Fallback.timeout := 90000 |}
                  (tl Image.models) "briaai/RMBG-2.0" (tl BgRemove.models) None
                  (Scenario.world_of Scenario.free_user []))).
  reflexivity.
Defined.

(** C1, as the spec has it, fails in the background-removal route: the
    first model never answers, its timer fires, and the request ends
    with a timeout error although two candidates that would have
    answered were never tried. *)
Lemma timeout_ends_background_removal :
  BgRemove.segment Scenario.first_mask_hangs [] BgRemove.models
    (Scenario.world_of Scenario.free_user [])
  = (Thrown (Js.Error "Request timeout"),
     logged (Scenario.world_of Scenario.free_user [])
       [ProviderCall "briaai/RMBG-2.0"]) /\
  Fallback.race 60000
    (imageSegmentation Scenario.first_mask_hangs "CIDAS/clipseg-rd64-refined" [])
  = Fulfils (MaskString "iVBORw0KGgo=") /\
  (let (r, w') :=
     serve (BgRemove.post Scenario.first_mask_hangs)
       (Scenario.with_file "cat.png" "image/png")
       (Scenario.world_of Scenario.free_user []) in
   r = {| status := 500;
          payload := ErrorBody "Image processing timed out. Please try again." |} /\
   provider_calls (log w') = ["briaai/RMBG-2.0"]).
Proof.
  split; [reflexivity|]. split; [reflexivity|]. vm_compute. split; reflexivity.
Qed.

(* ================================================================== *)
(** ** Input validation of the image route *)
(* ================================================================== *)

Lemma provider_calls_app (a b : list event) :
  provider_calls (a ++ b) = (provider_calls a ++ provider_calls b)%list.
Proof. unfold provider_calls. apply flat_map_app. Qed.

Lemma image_handler_short_prompt (ms : list Fallback.modelConfig) (E : env)
    (req : request) (uid : string) (w : world) :
  Image.too_short (prompt req) = true ->
  auth req = Some uid ->
  Js.truthy_string uid = true ->
  Image.handler_with ms E req w
  = (Returned {| status := 400;
                 payload := ErrorBody "Prompt must be at least 3 characters." |}, w).
Proof.
  intros Hshort Hauth Huid.
  unfold Image.handler_with. rewrite Hauth, Huid. simpl.
  destruct (prompt req) as [p|]; [|reflexivity].
  simpl in Hshort. rewrite Hshort, orb_true_r. reflexivity.
Qed.

(** What the image handler leaves behind when the prompt is too short:
    an answer that is not a success, the store and the log as they
    were. *)
Lemma image_handler_short_prompt_any (E : env) (req : request) (w : world) :
  Image.too_short (prompt req) = true ->
  exists r, Image.handler E req w = (Returned r, w) /\
            (status r = 400 \/ status r = 401).
Proof.
  intros Hshort. unfold Image.handler, Image.handler_with.
  destruct (auth req) as [uid|] eqn:Hauth; [|eexists; split; [reflexivity | now right]].
  destruct (Js.truthy_string uid) eqn:Huid; simpl;
    [|eexists; split; [reflexivity | now right]].
  destruct (prompt req) as [p|]; [|eexists; split; [reflexivity | now left]].
  simpl in Hshort. rewrite Hshort, orb_true_r.
  eexists; split; [reflexivity | now left].
Qed.

Lemma chain_cons (mw : request -> M step) (rest : list (request -> M step))
    (handler : request -> M response) (req : request) (w : world) :
  chain (mw :: rest) handler req w
  = match mw req w with
    | (Returned (Next req'), w') => chain rest handler req' w'
    | (Returned (Sent r), w') => (Returned r, w')
    | (Thrown e, w') => (Thrown e, w')
    end.
Proof.
  cbn [chain]. unfold bind.
  destruct (mw req w) as [[[req'|r]|e] w']; reflexivity.
Qed.

Lemma requireAuth_cases (E : env) (req : request) (w : world) :
  (exists r, requireAuth E req w = (Returned (Sent r), w) /\ status r = 401) \/
  (exists sub mail,
     requireAuth E req w = (Returned (Next (with_auth req sub)), signed_in w sub mail)).
Proof.
  unfold requireAuth, try_catch.
  destruct (authorization req) as [hdr|].
  - destruct (negb (Js.startsWith "Bearer " hdr)).
    + left. eexists. split; reflexivity.
    + destruct (verifyToken E _) as [e|[sub mail]].
      * left. eexists. split; reflexivity.
      * right. exists sub, (match mail with Some m => m | None => EmptyString end).
        reflexivity.
  - left. eexists. split; reflexivity.
Qed.

Lemma enforceDailyLimit_cases (E : env) (ft : string) (req : request)
    (uid : string) (w : world) :
  auth req = Some uid ->
  exists evs,
    (forall ev, In ev evs -> exists a b c, ev = UserFindUnique a \/ ev = HistoryCount a b c) /\
    ((exists r, RateLimit.enforceDailyLimit E ft req w = (Returned (Sent r), logged w evs)
                /\ (status r = 401 \/ status r = 429)) \/
     RateLimit.enforceDailyLimit E ft req w = (Returned (Next req), logged w evs)).
Proof.
  intros Hauth.
  destruct (find (fun x => String.eqb (user_id x) uid) (users (db w))) as [u|] eqn:Hfind.
  - destruct (isPremium u) eqn:Hprem.
    + exists [UserFindUnique uid]. split.
      * intros ev [<-|[]]. exists uid, uid, 0. now left.
      * right. now apply enforceDailyLimit_premium with (u := u).
    + exists [UserFindUnique uid;
              HistoryCount uid ft (RateLimit.startOfDay (now E))]. split.
      * intros ev [<-|[<-|[]]];
          exists uid, ft, (RateLimit.startOfDay (now E)); [left | right]; reflexivity.
      * rewrite (enforceDailyLimit_free E ft req uid u w Hauth Hfind Hprem).
        destruct (RateLimit.reached _ _).
        -- left. eexists. split; [reflexivity | now right].
        -- right. reflexivity.
  - exists [UserFindUnique uid]. split.
    + intros ev [<-|[]]. exists uid, uid, 0. now left.
    + left. eexists. split.
      * unfold RateLimit.enforceDailyLimit. rewrite Hauth.
        unfold bind, Prisma.user_findUnique, bind, emit, get_db, ret. simpl.
        rewrite Hfind. reflexivity.
      * now left.
Qed.

Lemma provider_calls_quota_events (evs : list event) :
  (forall ev, In ev evs -> exists a b c, ev = UserFindUnique a \/ ev = HistoryCount a b c) ->
  provider_calls evs = [].
Proof.
  induction evs as [|ev rest IH]; intros Hall; [reflexivity|].
  unfold provider_calls. simpl.
  destruct (Hall ev (or_introl eq_refl)) as [a [b [c [->| ->]]]]; simpl;
    apply IH; intros ev' Hin; apply Hall; now right.
Qed.

(** C6, as the code has it.  A request whose prompt is absent or shorter
    than three characters after trimming is answered 400 by the handler
    as soon as it gets there, before any provider call and any write;
    over the whole route -- where authentication and the quota check
    come first -- it is never a success, calls no provider, and leaves
    the history as it was. *)
Theorem short_prompt_never_reaches_provider (E : env) (req : request) (w : world) :
  Image.too_short (prompt req) = true ->
  (forall uid, auth req = Some uid -> Js.truthy_string uid = true ->
     Image.handler E req w
     = (Returned {| status := 400;
                    payload := ErrorBody "Prompt must be at least 3 characters." |}, w))
  /\
  (provider_calls (log (snd (serve (Image.post E) req w))) = provider_calls (log w) /\
   generationHistory (db (snd (serve (Image.post E) req w))) = generationHistory (db w) /\
   In (status (fst (serve (Image.post E) req w))) [400; 401; 429]).
Proof.
  intros Hshort. split.
  - intros uid Hauth Huid. now apply image_handler_short_prompt with (uid := uid).
  - unfold serve, Image.post. rewrite chain_cons.
    destruct (requireAuth_cases E req w) as [[r [-> Hr]]|[sub [mail ->]]].
    + simpl. rewrite Hr. intuition.
    + rewrite chain_cons.
      destruct (enforceDailyLimit_cases E "image-generator" (with_auth req sub) sub
                  (signed_in w sub mail) eq_refl) as [evs [Hevs [[r [-> Hr]]| ->]]].
      * simpl. rewrite !provider_calls_app, (provider_calls_quota_events evs Hevs).
        simpl. rewrite !app_nil_r. intuition.
      * cbn [chain].
        destruct (image_handler_short_prompt_any E (with_auth req sub)
                    (logged (signed_in w sub mail) evs) Hshort) as [r [-> Hr]].
        simpl. rewrite !provider_calls_app, (provider_calls_quota_events evs Hevs).
        simpl. rewrite !app_nil_r. intuition.
Qed.

Lemma short_prompt_never_reaches_provider_witness :
  Image.handler Scenario.quiet (Scenario.authed "user_1" (Scenario.with_prompt " ab "))
    (Scenario.world_of Scenario.free_user [])
  = (Returned {| status := 400;
                 payload := ErrorBody "Prompt must be at least 3 characters." |},
     Scenario.world_of Scenario.free_user []).
Proof.
  apply (proj1 (short_prompt_never_reaches_provider Scenario.quiet
                  (Scenario.authed "user_1" (Scenario.with_prompt " ab "))
                  (Scenario.world_of Scenario.free_user []) eq_refl)
           "user_1" eq_refl eq_refl).
Defined.

(** C6, as the spec has it, fails: the quota check is a middleware of
    the route and runs before the handler validates the prompt.  The
    same two-character prompt is answered 429 by the quota check for a
    user at the limit, and 400 by the validation for a user with no
    usage; in both runs the store was asked for the usage count. *)
Lemma quota_check_precedes_validation :
  (let (r, w') := serve (Image.post Scenario.quiet) (Scenario.with_prompt "ab")
                    (Scenario.world_of Scenario.free_user Scenario.ten_images_today) in
   status r = 429 /\
   log w' = [UserUpsert "user_1"; UserFindUnique "user_1";
             HistoryCount "user_1" "image-generator" 1752192000000]) /\
  (let (r, w') := serve (Image.post Scenario.quiet) (Scenario.with_prompt "ab")
                    (Scenario.world_of Scenario.free_user []) in
   status r = 400 /\
   log w' = [UserUpsert "user_1"; UserFindUnique "user_1";
             HistoryCount "user_1" "image-generator" 1752192000000]).
Proof.
  split; vm_compute; split; reflexivity.
Qed.

(* ================================================================== *)
(** ** A write the store refuses *)
(* ================================================================== *)

Lemma writes_app (a b : list event) : writes (a ++ b) = (writes a ++ writes b)%list.
Proof. unfold writes. apply filter_app. Qed.


Lemma logged_nil (w : world) : logged w [] = w.
Proof. unfold logged. rewrite app_nil_r. now destruct w. Qed.

Section LoopWorld.

Import Fallback.

Context {C P : Type}.
Variable model_of : C -> string.
Variable timeout_of : C -> Z.
Variable call : C -> behaviour P.
Variable retryable : Js.error -> bool.

(** The loop only ever adds provider calls to the log. *)
Lemma try_models_world (ms : list C) :
  forall (lastError : option Js.error) (w : world),
  exists r evs,
    try_models model_of timeout_of call retryable ms lastError w
    = (Returned r, logged w evs) /\ provider_only evs.
Proof.
  induction ms as [|m rest IH]; intros lastError w.
  - exists (None, lastError), []. rewrite logged_nil. split; [reflexivity | constructor].
  - cbn [try_models]. unfold bind, emit. cbn beta iota.
    change {| db := db w; log := log w ++ [ProviderCall (model_of m)] |}
      with (logged w [ProviderCall (model_of m)]).
    destruct (race (timeout_of m) (call m)) as [p|e].
    + exists (Some p, lastError), [ProviderCall (model_of m)].
      split; [reflexivity|]. constructor; [now eexists | constructor].
    + destruct (retryable e).
      * destruct (IH (Some e) (logged w [ProviderCall (model_of m)]))
          as [r [evs [Hrun Hevs]]].
        exists r, (ProviderCall (model_of m) :: evs).
        rewrite Hrun, logged_logged. split; [reflexivity|].
        constructor; [now eexists | exact Hevs].
      * exists (None, Some e), [ProviderCall (model_of m)].
        split; [reflexivity|]. constructor; [now eexists | constructor].
Qed.

Lemma first_success_world (truthy : P -> bool) (ms : list C) (w : world) :
  exists evs, provider_only evs /\
    ((exists p, first_success model_of timeout_of call retryable truthy ms w
                = (Returned p, logged w evs)) \/
     (exists e, first_success model_of timeout_of call retryable truthy ms w
                = (Thrown e, logged w evs))).
Proof.
  unfold first_success, bind.
  destruct (try_models_world ms None w) as [[[p|] l] [evs [-> Hevs]]];
    exists evs; (split; [exact Hevs|]); cbn [fst snd].
  - destruct (truthy p); [left | right]; eexists; reflexivity.
  - right. eexists. reflexivity.
Qed.

End LoopWorld.

Lemma create_refused (E : env) (e : Js.error) (uid ft : string) (i o : json)
    (w : world) :
  create_failure E = Some e ->
  Prisma.generationHistory_create E uid ft i o w
  = (Thrown e, logged w [HistoryCreate uid ft]).
Proof.
  intros Hfail. unfold Prisma.generationHistory_create, bind, emit.
  rewrite Hfail. reflexivity.
Qed.

Lemma convertToBase64_world (E : env) (p : image_payload) (w : world) :
  (exists s, Image.convertToBase64 E p w = (Returned s, w)) \/
  (exists e, Image.convertToBase64 E p w = (Thrown e, w)).
Proof.
  destruct p as [|s|c|c|[d|] [[b|e0]|] [b64|] [i|]];
    try (left; eexists; reflexivity); right; eexists; reflexivity.
Qed.


Lemma extract_mask_world (E : env) (p : mask_payload) (w : world) :
  (exists s, BgRemove.extract_mask E p w = (Returned s, w)) \/
  (exists e, BgRemove.extract_mask E p w = (Thrown e, w)).
Proof.
  unfold BgRemove.extract_mask.
  repeat match goal with
         | |- context [match ?x with _ => _ end] => destruct x
         end;
    try (left; eexists; reflexivity); right; eexists; reflexivity.
Qed.









(* ================================================================== *)
(** ** The canvas of the background removal *)
(* ================================================================== *)

Lemma round_div_bounds (a b : Z) :
  0 < b ->
  2 * (b * Sharp.round_div a b) <= 2 * a + b < 2 * (b * Sharp.round_div a b) + 2 * b.
Proof.
  intros Hb. unfold Sharp.round_div.
  pose proof (Z.mul_div_le (2 * a + b) (2 * b) ltac:(lia)).
  pose proof (Z.mul_succ_div_gt (2 * a + b) (2 * b) ltac:(lia)).
  lia.
Qed.

Lemma resize_inside_wide (w h : Z) :
  1 <= h -> h <= w -> 1024 < w ->
  let h' := Z.max 1 (Sharp.round_div (h * 1024) w) in
  1 <= h' <= h /\ h' <= 1024 /\ Z.abs (1024 * h - h' * w) < w.
Proof.
  intros Hh Hhw Hw h'.
  pose proof (round_div_bounds (h * 1024) w ltac:(lia)) as Hr.
  set (r := Sharp.round_div (h * 1024) w) in *.
  assert (0 <= r) by nia.
  assert (r <= h) by nia.
  assert (r <= 1024) by nia.
  subst h'.
  destruct (Z.max_spec 1 r) as [[Hlt ->]|[Hge ->]].
  - repeat split; try lia; apply Z.abs_lt; nia.
  - assert (r = 0 \/ r = 1) as [Hr0|Hr1] by lia.
    + repeat split; try lia; apply Z.abs_lt; nia.
    + repeat split; try lia; apply Z.abs_lt; nia.
Qed.

(** C8.  For an original of [w] by [h] pixels the canvas is no larger
    than the original on either side, its longest side is at most 1024
    and exactly 1024 when the original's is at least 1024, an original
    within 1024 by 1024 keeps its size, and the shorter side is less
    than a pixel away from the exact proportion; 2000 by 2000 gives 1024
    by 1024. *)
Theorem canvas_is_bounded_and_proportional (w h : Z) :
  1 <= w -> 1 <= h ->
  let w' := fst (BgRemove.canvas w h) in
  let h' := snd (BgRemove.canvas w h) in
  1 <= w' <= w /\ 1 <= h' <= h /\
  Z.max w' h' <= 1024 /\
  (1024 <= Z.max w h -> Z.max w' h' = 1024) /\
  (w <= 1024 -> h <= 1024 -> w' = w /\ h' = h) /\
  Z.abs (w' * h - h' * w) < Z.max w h /\
  BgRemove.canvas 2000 2000 = (1024, 1024).
Proof.
  intros Hw Hh. unfold BgRemove.canvas, Sharp.resize_inside.
  destruct (Z.leb_spec w 1024) as [Hw1|Hw1];
    destruct (Z.leb_spec h 1024) as [Hh1|Hh1]; cbn [andb fst snd].
  - cbv zeta. replace (w * h - h * w) with 0 by ring. simpl Z.abs.
    repeat split; intros; lia.
  - (* tall: the height is the longest side *)
    destruct (Z.leb_spec (h * 1024) (w * 1024)) as [Hcmp|Hcmp]; [lia|].
    cbn [fst snd]. cbv zeta.
    destruct (resize_inside_wide h w Hw ltac:(lia) Hh1) as [H1 [H2 H3]].
    set (x := Z.max 1 (Sharp.round_div (w * 1024) h)) in *.
    replace (x * h - 1024 * w) with (- (1024 * w - x * h)) by ring.
    rewrite Z.abs_opp.
    repeat split; intros; lia.
  - (* wide: the width is the longest side *)
    destruct (Z.leb_spec (h * 1024) (w * 1024)) as [Hcmp|Hcmp]; [|lia].
    cbn [fst snd]. cbv zeta.
    destruct (resize_inside_wide w h Hh ltac:(lia) Hw1) as [H1 [H2 H3]].
    set (x := Z.max 1 (Sharp.round_div (h * 1024) w)) in *.
    repeat split; intros; lia.
  - destruct (Z.leb_spec (h * 1024) (w * 1024)) as [Hcmp|Hcmp]; cbn [fst snd]; cbv zeta.
    + destruct (resize_inside_wide w h Hh ltac:(lia) Hw1) as [H1 [H2 H3]].
      set (x := Z.max 1 (Sharp.round_div (h * 1024) w)) in *.
      repeat split; intros; lia.
    + destruct (resize_inside_wide h w Hw ltac:(lia) Hh1) as [H1 [H2 H3]].
      set (x := Z.max 1 (Sharp.round_div (w * 1024) h)) in *.
      replace (x * h - 1024 * w) with (- (1024 * w - x * h)) by ring.
      rewrite Z.abs_opp.
      repeat split; intros; lia.
Qed.

Lemma canvas_is_bounded_and_proportional_witness :
  Z.max (fst (BgRemove.canvas 3000 2000)) (snd (BgRemove.canvas 3000 2000)) = 1024.
Proof.
  pose proof (canvas_is_bounded_and_proportional 3000 2000 ltac:(lia) ltac:(lia)) as H.
  cbv zeta in H.
  apply (proj1 (proj2 (proj2 (proj2 H)))). vm_compute. discriminate.
Defined.

(* ================================================================== *)
(** ** The history listing *)
(* ================================================================== *)

Lemma insert_desc_In (g x : GenerationHistory) (rows : list GenerationHistory) :
  In x (History.insert_desc g rows) -> x = g \/ In x rows.
Proof.
  induction rows as [|r rest IH]; simpl.
  - intros [<-|[]]. now left.
  - destruct (createdAt r <=? createdAt g).
    + intros [<-|Hin]; [now left | now right].
    + intros [<-|Hin]; [right; now left|].
      destruct (IH Hin) as [->|Hin']; [now left | right; now right].
Qed.

Lemma insert_desc_sorted (g : GenerationHistory) (rows : list GenerationHistory) :
  StronglySorted History.newer_first rows ->
  StronglySorted History.newer_first (History.insert_desc g rows).
Proof.
  induction 1 as [|r rest Hsorted IH Hall]; simpl.
  - constructor; constructor.
  - destruct (Z.leb_spec (createdAt r) (createdAt g)) as [Hle|Hgt].
    + constructor; [constructor; assumption|].
      constructor; [exact Hle|].
      rewrite Forall_forall in Hall |- *. intros x Hx.
      specialize (Hall x Hx). unfold History.newer_first in *. lia.
    + constructor; [exact IH|].
      rewrite Forall_forall in Hall |- *. intros x Hx.
      destruct (insert_desc_In g x rest Hx) as [->|Hin].
      * unfold History.newer_first. lia.
      * now apply Hall.
Qed.

Lemma sort_desc_sorted (rows : list GenerationHistory) :
  StronglySorted History.newer_first (History.sort_desc rows).
Proof.
  induction rows as [|g rest IH]; simpl; [constructor|].
  now apply insert_desc_sorted.
Qed.

Lemma after_cursor_sorted (c : string) (rows : list GenerationHistory) :
  StronglySorted History.newer_first rows ->
  StronglySorted History.newer_first (History.after_cursor c rows).
Proof.
  induction 1 as [|r rest Hsorted IH Hall]; simpl; [constructor|].
  destruct (String.eqb (id r) c); assumption.
Qed.

Lemma firstn_incl {A} (n : nat) (l : list A) (x : A) :
  In x (firstn n l) -> In x l.
Proof.
  revert n. induction l as [|a l IH]; intros [|n]; simpl; try tauto.
  intros [<-|Hin]; [now left | right; now apply (IH n)].
Qed.

Lemma firstn_sorted {A} (R : A -> A -> Prop) (n : nat) (l : list A) :
  StronglySorted R l -> StronglySorted R (firstn n l).
Proof.
  intros Hs. revert n.
  induction Hs as [|a l Hsorted IH Hall]; intros [|n]; simpl; try constructor.
  - apply IH.
  - rewrite Forall_forall in Hall |- *. intros x Hx.
    apply Hall. eapply firstn_incl. exact Hx.
Qed.

Lemma select_sorted (rows : list GenerationHistory) :
  StronglySorted History.newer_first rows -> History.descending (map select rows).
Proof.
  unfold History.descending.
  induction 1 as [|r rest Hsorted IH Hall]; simpl; constructor; [exact IH|].
  rewrite Forall_forall in Hall |- *. intros x Hx.
  apply in_map_iff in Hx. destruct Hx as [g [<- Hg]].
  apply (Hall g Hg).
Qed.

(** The row named by the cursor splits the listing, and the page is
    taken from what follows it. *)
Lemma after_cursor_split (c : string) (pre post : list GenerationHistory)
    (r : GenerationHistory) :
  id r = c ->
  ~ In c (map id pre) ->
  History.after_cursor c (pre ++ r :: post) = post.
Proof.
  intros Hid. induction pre as [|x pre IH]; simpl; intros Hnot.
  - rewrite Hid, String.eqb_refl. reflexivity.
  - destruct (String.eqb_spec (id x) c) as [Heq|Hne].
    + exfalso. apply Hnot. now left.
    + apply IH. intros Hin. apply Hnot. now right.
Qed.

(** C9, as the code has it.  For a signed-in user the listing answers
    with rows in descending order of creation time.  The page holds at
    most [k] rows, where [k] is the requested limit capped at 50 when a
    positive integer is requested, and 20 when the limit is absent, not
    numeric, or zero.  With a cursor the page is taken from the rows
    that follow the row whose id is the cursor. *)
Theorem history_page_is_ordered_and_capped (E : env) (req : request) (w : world)
    (uid : string) (k : Z) :
  auth req = Some uid ->
  (exists n, query_limit req = Js.Int n /\ 0 < n /\ k = Z.min n 50) \/
  ((query_limit req = Js.NaN \/ query_limit req = Js.Int 0) /\ k = 20) ->
  let rows := History.sort_desc
                (filter (fun g => String.eqb (userId g) uid)
                        (generationHistory (db w))) in
  let start := match History.page_cursor req with
               | Some c => History.after_cursor c rows
               | None => rows
               end in
  let items := map select (firstn (Z.to_nat k) start) in
  1 <= k <= 50 /\
  (exists pg,
     History.handler E req w
     = (Returned (json_ok (HistoryBody items pg)),
        logged w [HistoryFindMany uid; HistoryCountAll uid]) /\
     limit pg = Js.Int k) /\
  Z.of_nat (List.length items) <= k /\
  History.descending items /\
  (forall c pre r post,
     History.page_cursor req = Some c ->
     rows = (pre ++ r :: post)%list -> id r = c -> ~ In c (map id pre) ->
     items = map select (firstn (Z.to_nat k) post)).
Proof.
  intros Hauth Hlimit rows start items.
  assert (History.page_limit req = Js.Int k /\ 1 <= k <= 50) as [Hpl Hk].
  { unfold History.page_limit.
    destruct Hlimit as [[n [-> [Hn ->]]]|[[->| ->] ->]]; simpl.
    - unfold Js.or_default. simpl.
      destruct (Z.eqb_spec n 0); [lia|]. simpl. split; [reflexivity | lia].
    - split; [reflexivity | lia].
    - split; [reflexivity | lia]. }
  split; [exact Hk|]. split; [|split; [|split]].
  - eexists. split.
    + unfold History.handler, try_catch, bind, History.findMany, History.count,
        bind, emit, get_db, ret.
      rewrite Hpl, Hauth. cbn beta iota. cbn [db log].
      assert ((0 <=? k) = true) as Hpos by (apply Z.leb_le; lia).
      unfold History.page. rewrite Hpos.
      unfold logged. rewrite <- app_assoc. reflexivity.
    + reflexivity.
  - subst items. rewrite length_map.
    pose proof (firstn_le_length (Z.to_nat k) start). lia.
  - subst items. apply select_sorted, firstn_sorted.
    subst start. destruct (History.page_cursor req) as [c|].
    + apply after_cursor_sorted, sort_desc_sorted.
    + apply sort_desc_sorted.
  - intros c pre r post Hc Hrows Hid Hnot.
    subst items start. rewrite Hc, Hrows.
    now rewrite (after_cursor_split c pre post r Hid Hnot).
Qed.

Lemma history_page_is_ordered_and_capped_witness :
  exists pg,
    History.handler Scenario.quiet
      (Scenario.authed "user_1" (Scenario.listing (Js.Int 2) (Some "g2")))
      (Scenario.world_of Scenario.free_user Scenario.three_rows)
    = (Returned (json_ok (HistoryBody
                   [select (Scenario.row "g3" "user_1" "image-generator" 1752192000200);
                    select (Scenario.row "g1" "user_1" "image-generator" 1752192000100)]
                   pg)),
       logged (Scenario.world_of Scenario.free_user Scenario.three_rows)
         [HistoryFindMany "user_1"; HistoryCountAll "user_1"]) /\
    limit pg = Js.Int 2.
Proof.
  pose proof (history_page_is_ordered_and_capped Scenario.quiet
                (Scenario.authed "user_1" (Scenario.listing (Js.Int 2) (Some "g2")))
                (Scenario.world_of Scenario.free_user Scenario.three_rows)
                "user_1" 2 eq_refl) as H.
  cbv zeta in H.
  refine (proj1 (proj2 (H _))).
  left. exists 2. repeat split; reflexivity.
Defined.

(** C9, as the spec has it, fails for a requested limit of zero: zero is
    numeric, capping it at 50 leaves zero, yet the handler replaces it
    by 20 and lists the rows. *)
Lemma zero_limit_lists_twenty :
  Js.Math_min (Js.Int 0) 50 = Js.Int 0 /\
  History.page_limit (Scenario.listing (Js.Int 0) None) = Js.Int 20 /\
  (exists items pg,
     fst (History.handler Scenario.quiet
            (Scenario.authed "user_1" (Scenario.listing (Js.Int 0) None))
            (Scenario.world_of Scenario.free_user Scenario.three_rows))
     = Returned (json_ok (HistoryBody items pg)) /\
     map item_id items = ["g2"; "g3"; "g1"] /\
     limit pg = Js.Int 20).
Proof.
  split; [reflexivity|]. split; [reflexivity|].
  eexists. eexists. split; [vm_compute; reflexivity|]. split; reflexivity.
Qed.

(* ================================================================== *)
(** ** A completion without content *)
(* ================================================================== *)

(** C10.  When the loop of the resume route ends with a completion that
    has no first choice with content, the handler takes the fixed text
    "No analysis returned." as the analysis, stores a history row whose
    output is that text, and answers 200 with it. *)
Theorem empty_completion_is_stored_as_placeholder (E : env) (req : request)
    (f : upload) (text : string) (c : completion) (uid : string) (w w1 : world) :
  file req = Some f ->
  PdfExtract.extractTextFromPdf E (buffer f) = inr text ->
  100 <= Js.length text ->
  Resume.analyse E text Resume.models w = (Returned c, w1) ->
  Resume.first_content c = None ->
  auth req = Some uid ->
  Js.truthy_string uid = true ->
  create_failure E = None ->
  Resume.handler E req w
  = (Returned (json_ok (AnalysisBody "No analysis returned.")),
     {| db := {| users := users (db w1);
                 generationHistory :=
                   generationHistory (db w1) ++
                   [ {| id := fresh_id E; userId := uid;
                        feature := "resume-analyzer";
                        input := [("filename", originalname f)];
                        output := [("analysis", "No analysis returned.")];
                        createdAt := insert_time E |} ] |};
        log := log w1 ++ [HistoryCreate uid "resume-analyzer"] |}).
Proof.
  intros Hfile Hpdf Hlen Hrun Hnone Hauth Huid Hstore.
  unfold Resume.handler, Resume.handler_with. rewrite Hfile.
  unfold try_catch, bind. rewrite Hpdf. unfold Resume.lift, ret at 1.
  assert (Js.truthy_string text = true) as Htext.
  { destruct text; [unfold Js.length in Hlen; simpl in Hlen; lia | reflexivity]. }
  assert ((Js.length text <? 100) = false) as Hlong by (apply Z.ltb_ge; lia).
  rewrite Htext, Hlong. cbn [negb orb]. rewrite Hrun.
  unfold Resume.userId_truthy. rewrite Hauth, Huid.
  unfold Resume.analysis_of. rewrite Hnone.
  unfold Prisma.generationHistory_create, bind, emit, get_db, put_db, ret.
  rewrite Hstore. reflexivity.
Qed.

Lemma empty_completion_is_stored_as_placeholder_witness :
  fst (Resume.handler Scenario.no_choices
         (Scenario.authed "user_1" (Scenario.with_file "cv.pdf" "application/pdf"))
         (Scenario.world_of Scenario.free_user []))
  = Returned (json_ok (AnalysisBody "No analysis returned.")).
Proof.
  rewrite (empty_completion_is_stored_as_placeholder Scenario.no_choices
             (Scenario.authed "user_1" (Scenario.with_file "cv.pdf" "application/pdf"))
             {| originalname := "cv.pdf"; mimetype := "application/pdf"; buffer := [] |}
             Scenario.resume_text (Completion None) "user_1"
             (Scenario.world_of Scenario.free_user [])
             (logged (Scenario.world_of Scenario.free_user [])
                [ProviderCall "deepseek-ai/DeepSeek-R1-0528"])
             eq_refl eq_refl ltac:(vm_compute; discriminate) eq_refl eq_refl
             eq_refl eq_refl eq_refl).
  reflexivity.
Defined.

(* ================================================================== *)
(** ** More on the fallback loop *)
(* ================================================================== *)

Section LoopOutcomes.

Import Fallback.

Context {C P : Type}.
Variable model_of : C -> string.
Variable timeout_of : C -> Z.
Variable call : C -> behaviour P.
Variable retryable : Js.error -> bool.

(** Walking a run of retried candidates leaves, as the last error, the
    error of the last of them. *)
Lemma try_models_retried_snoc (pre : list C) (c : C) (e : Js.error) (rest : list C) :
  Forall (retried timeout_of call retryable) pre ->
  race (timeout_of c) (call c) = Rejects e ->
  retryable e = true ->
  forall (lastError : option Js.error) (w : world),
    try_models model_of timeout_of call retryable ((pre ++ [c]) ++ rest) lastError w
    = try_models model_of timeout_of call retryable rest (Some e)
        (logged w (attempts model_of (pre ++ [c]))).
Proof.
  intros Hpre Hrace Hretry lastError w.
  rewrite <- app_assoc. cbn [app].
  destruct (try_models_retried_prefix model_of timeout_of call retryable
              pre (c :: rest) Hpre lastError w) as [l' ->].
  rewrite (try_models_step_retry model_of timeout_of call retryable
             c rest e l' _ Hrace Hretry).
  rewrite logged_logged. unfold attempts. rewrite map_app. reflexivity.
Qed.

(** X1.  The first candidate that fulfils with a truthy answer ends the
    loop with that answer: the candidates before it were each tried
    once, the candidates after it are not tried at all. *)
Theorem first_fulfilment_wins (truthy : P -> bool)
    (pre : list C) (c : C) (post : list C) (p : P) (w : world) :
  Forall (retried timeout_of call retryable) pre ->
  race (timeout_of c) (call c) = Fulfils p ->
  truthy p = true ->
  first_success model_of timeout_of call retryable truthy (pre ++ c :: post) w
  = (Returned p, logged w (attempts model_of (pre ++ [c]))).
Proof.
  intros Hpre Hrace Htruthy.
  unfold first_success, bind.
  destruct (try_models_retried_prefix model_of timeout_of call retryable
              pre (c :: post) Hpre None w) as [l' ->].
  cbn [try_models]. unfold bind, emit. cbn beta iota.
  rewrite Hrace. unfold ret. cbn [fst snd]. rewrite Htruthy.
  unfold attempts. rewrite map_app. unfold logged. cbn [db log map].
  rewrite app_assoc. reflexivity.
Qed.

(** X2.  When every candidate fails with a retryable error the loop
    tries them all, in order, and throws the error of the last one; with
    no candidate at all it throws "All models failed". *)
Theorem exhausted_candidates_throw_last_error (truthy : P -> bool)
    (pre : list C) (c : C) (e : Js.error) (w : world) :
  Forall (retried timeout_of call retryable) pre ->
  race (timeout_of c) (call c) = Rejects e ->
  retryable e = true ->
  first_success model_of timeout_of call retryable truthy (pre ++ [c]) w
  = (Thrown e, logged w (attempts model_of (pre ++ [c]))) /\
  first_success model_of timeout_of call retryable truthy [] w
  = (Thrown (Js.Error "All models failed"), w).
Proof.
  intros Hpre Hrace Hretry. split; [|reflexivity].
  unfold first_success, bind.
  rewrite <- (app_nil_r (pre ++ [c])) at 1.
  rewrite (try_models_retried_snoc pre c e [] Hpre Hrace Hretry None w).
  reflexivity.
Qed.

(** X3.  A candidate that fulfils with a falsy answer still ends the
    loop, and the request fails: what is thrown is the error of the
    candidate tried just before it, or "All models failed" when it was
    the first, and the candidates after it are never tried. *)
Theorem falsy_answer_ends_the_loop (truthy : P -> bool)
    (pre : list C) (c : C) (post : list C) (p : P) (w : world) :
  Forall (retried timeout_of call retryable) pre ->
  race (timeout_of c) (call c) = Fulfils p ->
  truthy p = false ->
  exists e,
    first_success model_of timeout_of call retryable truthy (pre ++ c :: post) w
    = (Thrown e, logged w (attempts model_of (pre ++ [c]))) /\
    (pre = [] -> e = Js.Error "All models failed") /\
    (forall pre' c', pre = (pre' ++ [c'])%list ->
       race (timeout_of c') (call c') = Rejects e).
Proof.
  intros Hpre Hrace Hfalsy.
  destruct (rev pre) as [|c' erp] eqn:Hrev.
  - assert (pre = []) as -> by (rewrite <- (rev_involutive pre), Hrev; reflexivity).
    exists (Js.Error "All models failed").
    split; [|split].
    + unfold first_success, bind. cbn [app try_models]. unfold bind, emit.
      cbn beta iota. rewrite Hrace. unfold ret. cbn [fst snd]. rewrite Hfalsy.
      reflexivity.
    + reflexivity.
    + intros pre' c'' Heq. destruct pre'; discriminate.
  - assert (pre = (rev erp ++ [c'])%list) as Hpre_eq.
    { rewrite <- (rev_involutive pre), Hrev. reflexivity. }
    subst pre.
    apply Forall_app in Hpre. destruct Hpre as [Hinit Hlast].
    inversion Hlast as [|? ? [e [He Hretry]] _]; subst.
    exists e. split; [|split].
    + unfold first_success, bind.
      rewrite (try_models_retried_snoc (rev erp) c' e (c :: post) Hinit He Hretry None w).
      cbn [try_models]. unfold bind, emit. cbn beta iota.
      rewrite Hrace. unfold ret. cbn [fst snd]. rewrite Hfalsy.
      unfold throw. unfold attempts. rewrite !map_app. unfold logged. cbn [db log map].
      rewrite <- !app_assoc. reflexivity.
    + intros Hnil. destruct (rev erp); discriminate.
    + intros pre' c'' Heq.
      apply app_inj_tail in Heq. destruct Heq as [_ <-]. exact He.
Qed.

(** X4.  Whatever the candidates answer, the loop tries a prefix of the
    list, each candidate once and in the order of the list, and leaves
    the store alone. *)
Theorem attempts_are_a_prefix (ms : list C) (lastError : option Js.error) (w : world) :
  exists n,
    snd (try_models model_of timeout_of call retryable ms lastError w)
    = logged w (attempts model_of (firstn n ms)).
Proof.
  revert lastError w. induction ms as [|m rest IH]; intros lastError w.
  - exists 0%nat. cbn. now rewrite logged_nil.
  - cbn [try_models]. unfold bind, emit. cbn beta iota.
    change {| db := db w; log := log w ++ [ProviderCall (model_of m)] |}
      with (logged w [ProviderCall (model_of m)]).
    destruct (race (timeout_of m) (call m)) as [p|e].
    + exists 1%nat. reflexivity.
    + destruct (retryable e).
      * destruct (IH (Some e) (logged w [ProviderCall (model_of m)])) as [n Hn].
        exists (S n). rewrite Hn, logged_logged. reflexivity.
      * exists 1%nat. reflexivity.
Qed.

End LoopOutcomes.

Lemma first_fulfilment_wins_witness :
  Image.generate Cases.first_out_of_credit "a red fox" Image.models
    (Scenario.world_of Scenario.free_user [])
  = (Returned (ImgString "iVBORw0KGgo="),
     logged (Scenario.world_of Scenario.free_user [])
       [ProviderCall "black-forest-labs/FLUX.1-dev";
        ProviderCall "stabilityai/stable-diffusion-xl-base-1.0"]).
Proof.
  apply (first_fulfilment_wins Fallback.model Fallback.timeout
           (fun m => textToImage Cases.first_out_of_credit (Fallback.model m) "a red fox")
           Fallback.timeout_or_credit Image.truthy
           [Cases.flux] Cases.sdxl [Cases.sd15] (ImgString "iVBORw0KGgo=")).
  - constructor; [|constructor].
    exists Scenario.out_of_credit. split; reflexivity.
  - reflexivity.
  - reflexivity.
Defined.

Lemma exhausted_candidates_throw_last_error_witness :
  Image.generate Scenario.quiet "a red fox" Image.models
    (Scenario.world_of Scenario.free_user [])
  = (Thrown (Js.Error "Request timeout"),
     logged (Scenario.world_of Scenario.free_user [])
       [ProviderCall "black-forest-labs/FLUX.1-dev";
        ProviderCall "stabilityai/stable-diffusion-xl-base-1.0";
        ProviderCall "runwayml/stable-diffusion-v1-5"]).
Proof.
  apply (proj1 (exhausted_candidates_throw_last_error Fallback.model Fallback.timeout
                  (fun m => textToImage Scenario.quiet (Fallback.model m) "a red fox")
                  Fallback.timeout_or_credit Image.truthy
                  [Cases.flux; Cases.sdxl] Cases.sd15 (Js.Error "Request timeout")
                  (Scenario.world_of Scenario.free_user [])
                  ltac:(repeat constructor;
                        exists (Js.Error "Request timeout"); split; reflexivity)
                  eq_refl eq_refl)).
Defined.

Lemma falsy_answer_ends_the_loop_witness :
  exists e,
    Image.generate Cases.empty_answer "a red fox" Image.models
      (Scenario.world_of Scenario.free_user [])
    = (Thrown e,
       logged (Scenario.world_of Scenario.free_user [])
         [ProviderCall "black-forest-labs/FLUX.1-dev";
          ProviderCall "stabilityai/stable-diffusion-xl-base-1.0"]).
Proof.
  destruct (falsy_answer_ends_the_loop Fallback.model Fallback.timeout
              (fun m => textToImage Cases.empty_answer (Fallback.model m) "a red fox")
              Fallback.timeout_or_credit Image.truthy
              [Cases.flux] Cases.sdxl [Cases.sd15] (ImgString EmptyString)
              (Scenario.world_of Scenario.free_user [])
              ltac:(repeat constructor;
                    exists Scenario.out_of_credit; split; reflexivity)
              eq_refl eq_refl) as [e [He _]].
  exists e. exact He.
Defined.

(* ================================================================== *)
(** ** One history row per success *)
(* ================================================================== *)

Lemma create_accepted (E : env) (uid ft : string) (i o : json) (w : world) :
  create_failure E = None ->
  Prisma.generationHistory_create E uid ft i o w
  = (Returned {| id := fresh_id E; userId := uid; feature := ft;
                 input := i; output := o; createdAt := insert_time E |},
     {| db := {| users := users (db w);
                 generationHistory :=
                   generationHistory (db w) ++
                   [ {| id := fresh_id E; userId := uid; feature := ft;
                        input := i; output := o; createdAt := insert_time E |} ] |};
        log := log w ++ [HistoryCreate uid ft] |}).
Proof.
  intros Hok. unfold Prisma.generationHistory_create, bind, emit, get_db, put_db, ret.
  rewrite Hok. reflexivity.
Qed.

Lemma nothing_recorded (E : env) (req : request) (ft key : string)
    (good : string -> Prop) (w : world) (st : Z) (b : body) (evs : list event) :
  st <> 200 ->
  records_exactly_on_success E req ft key good
    (Returned {| status := st; payload := b |}, logged w evs) w.
Proof.
  intros Hst. eexists _, _. split; [reflexivity|]. split; [reflexivity|].
  split; [intros H200; now cbn in H200 | reflexivity].
Qed.

Ltac nothing_recorded_after l :=
  try unfold throw; try unfold ret;
  first [ apply nothing_recorded with (evs := l); discriminate
        | rewrite <- (logged_nil _) at 1;
          apply nothing_recorded with (evs := @nil event); discriminate ].

Lemma truthy_string_nonempty (s : string) :
  Js.truthy_string s = true -> s <> EmptyString.
Proof. intros H ->. discriminate. Qed.

Lemma image_records_exactly_on_success (ms : list Fallback.modelConfig) (E : env)
    (req : request) (w : world) :
  records_exactly_on_success E req "image-generator" "image"
    (fun text => text <> EmptyString) (Image.handler_with ms E req w) w.
Proof.
  unfold Image.handler_with.
  destruct (auth req) as [uid|] eqn:Hauth; [|nothing_recorded_after (@nil event)].
  destruct (negb (Js.truthy_string uid)); [nothing_recorded_after (@nil event)|].
  destruct (prompt req) as [p|]; [|nothing_recorded_after (@nil event)].
  destruct (negb (Js.truthy_string p) || (Js.length (Js.trim p) <? 3));
    [nothing_recorded_after (@nil event)|].
  unfold try_catch, bind, Image.generate.
  destruct (first_success_world Fallback.model Fallback.timeout
              (fun m => textToImage E (Fallback.model m)
                          (Image.buildFullPrompt p (style req) (size req)))
              Fallback.timeout_or_credit Image.truthy ms w)
    as [evs [Hevs [[resp ->]|[e' ->]]]]; [|nothing_recorded_after evs].
  destruct (convertToBase64_world E resp (logged w evs)) as [[b64 ->]|[e' ->]];
    [|nothing_recorded_after evs].
  destruct (Js.truthy_string b64) eqn:Hb64; cbn [negb orb];
    [|nothing_recorded_after evs].
  destruct (Js.length b64 =? 0); [nothing_recorded_after evs|].
  destruct (create_failure E) as [e|] eqn:Hstore.
  - rewrite (create_refused E e _ _ _ _ _ Hstore). unfold ret.
    rewrite logged_logged. nothing_recorded_after (evs ++ [HistoryCreate uid "image-generator"])%list.
  - rewrite (create_accepted E _ _ _ _ _ Hstore). unfold ret.
    eexists _, _. split; [reflexivity|]. split; [reflexivity|]. split.
    + intros _. exists uid, b64, (("prompt", p) :: field "style" (style req)
                                   ++ field "size" (size req))%list.
      split; [exact Hauth|]. split; [now left|].
      split; [now apply truthy_string_nonempty | reflexivity].
    + intros Hne. now cbn in Hne.
Qed.

Lemma bgRemove_records_exactly_on_success (ms : list string) (E : env)
    (req : request) (w : world) :
  records_exactly_on_success E req "background-remover" "image"
    (fun _ => True) (BgRemove.handler_with ms E req w) w.
Proof.
  unfold BgRemove.handler_with.
  destruct (auth req) as [uid|] eqn:Hauth; [|nothing_recorded_after (@nil event)].
  destruct (negb (Js.truthy_string uid)); [nothing_recorded_after (@nil event)|].
  destruct (file req) as [f|]; [|nothing_recorded_after (@nil event)].
  unfold try_catch, bind, BgRemove.segment.
  destruct (sharp_compress E (buffer f)) as [e'|compressed]; unfold BgRemove.lift at 1;
    [nothing_recorded_after (@nil event)|].
  unfold ret at 1.
  destruct (first_success_world (fun m : string => m) (fun _ => 60000)
              (fun m => imageSegmentation E m compressed)
              Fallback.credit_only BgRemove.truthy ms w)
    as [evs [Hevs [[mask ->]|[e' ->]]]]; [|nothing_recorded_after evs].
  destruct (extract_mask_world E mask (logged w evs)) as [[b64 ->]|[e' ->]];
    [|nothing_recorded_after evs].
  destruct (sharp_composite E (buffer f) (base64_decode E b64)) as [e'|out];
    unfold BgRemove.lift; [nothing_recorded_after evs|].
  unfold ret at 1.
  destruct (create_failure E) as [e|] eqn:Hstore.
  - rewrite (create_refused E e _ _ _ _ _ Hstore). unfold ret.
    rewrite logged_logged.
    nothing_recorded_after (evs ++ [HistoryCreate uid "background-remover"])%list.
  - rewrite (create_accepted E _ _ _ _ _ Hstore). unfold ret.
    eexists _, _. split; [reflexivity|]. split; [reflexivity|]. split.
    + intros _. exists uid, (base64_encode E out), [("filename", originalname f)].
      split; [exact Hauth|]. split; [now left|]. split; [exact I | reflexivity].
    + intros Hne. now cbn in Hne.
Qed.

Lemma analysis_of_nonempty (c : completion) : Resume.analysis_of c <> EmptyString.
Proof.
  unfold Resume.analysis_of.
  destruct (Resume.first_content c) as [s|]; [|discriminate].
  destruct (Js.truthy_string s) eqn:Hs; [now apply truthy_string_nonempty | discriminate].
Qed.

Lemma resume_records_exactly_on_success (ms : list Fallback.modelConfig) (E : env)
    (req : request) (w : world) :
  records_exactly_on_success E req "resume-analyzer" "analysis"
    (fun text => text <> EmptyString) (Resume.handler_with ms E req w) w.
Proof.
  unfold Resume.handler_with.
  destruct (file req) as [f|]; [|nothing_recorded_after (@nil event)].
  unfold try_catch, bind, Resume.analyse.
  destruct (PdfExtract.extractTextFromPdf E (buffer f)) as [e'|text];
    unfold Resume.lift; [nothing_recorded_after (@nil event)|].
  unfold ret at 1.
  destruct (negb (Js.truthy_string text) || (Js.length text <? 100));
    [nothing_recorded_after (@nil event)|].
  destruct (first_success_world Fallback.model Fallback.timeout
              (fun m => chatCompletion E (Fallback.model m) text)
              Fallback.timeout_or_credit Resume.truthy ms w)
    as [evs [Hevs [[c ->]|[e' ->]]]]; [|nothing_recorded_after evs].
  unfold Resume.userId_truthy.
  destruct (auth req) as [uid|] eqn:Hauth; [|nothing_recorded_after evs].
  destruct (Js.truthy_string uid); [|nothing_recorded_after evs].
  destruct (create_failure E) as [e|] eqn:Hstore.
  - rewrite (create_refused E e _ _ _ _ _ Hstore). unfold ret.
    rewrite logged_logged.
    nothing_recorded_after (evs ++ [HistoryCreate uid "resume-analyzer"])%list.
  - rewrite (create_accepted E _ _ _ _ _ Hstore). unfold ret.
    eexists _, _. split; [reflexivity|]. split; [reflexivity|]. split.
    + intros _. exists uid, (Resume.analysis_of c), [("filename", originalname f)].
      split; [exact Hauth|]. split; [now right|].
      split; [apply analysis_of_nonempty | reflexivity].
    + intros Hne. now cbn in Hne.
Qed.

(** X5.  Each of the three generation handlers writes one history row
    exactly when it answers 200: the row belongs to the signed-in user,
    has the feature of the route and holds the text that is sent (never
    an empty one for images and analyses); whenever the answer is not a
    200 the history is as it was before.  The users are never
    touched. *)
Theorem one_history_row_per_success (E : env) (req : request) (w : world) :
  records_exactly_on_success E req "image-generator" "image"
    (fun text => text <> EmptyString) (Image.handler E req w) w /\
  records_exactly_on_success E req "background-remover" "image"
    (fun _ => True) (BgRemove.handler E req w) w /\
  records_exactly_on_success E req "resume-analyzer" "analysis"
    (fun text => text <> EmptyString) (Resume.handler E req w) w.
Proof.
  split; [|split].
  - apply image_records_exactly_on_success.
  - apply bgRemove_records_exactly_on_success.
  - apply resume_records_exactly_on_success.
Qed.

Lemma count_rows_app (uid ft : string) (since : Z) (a b : list GenerationHistory) :
  Prisma.count_rows uid ft since (a ++ b)
  = Prisma.count_rows uid ft since a + Prisma.count_rows uid ft since b.
Proof.
  unfold Prisma.count_rows. rewrite filter_app, length_app. lia.
Qed.


Lemma counts_from_record (E : env) (req : request) (ft key : string)
    (good : string -> Prop) (run : outcome response * world) (w : world) (uid : string) :
  auth req = Some uid ->
  RateLimit.startOfDay (now E) <= insert_time E ->
  records_exactly_on_success E req ft key good run w ->
  counts_one_more E uid ft run w.
Proof.
  intros Hauth Htime [r [w' [Hrun [_ [Hok Hfail]]]]].
  exists r, w'. split; [exact Hrun|]. intros uid' ft'.
  destruct (Z.eqb_spec (status r) 200) as [H200|Hne].
  - destruct (Hok H200) as [uid0 [text [i [Hauth0 [_ [_ ->]]]]]].
    rewrite Hauth in Hauth0. injection Hauth0 as <-.
    rewrite count_rows_app. f_equal.
    unfold Prisma.count_rows, Prisma.matches. cbn [filter userId feature createdAt].
    rewrite (String.eqb_sym uid uid'), (String.eqb_sym ft ft').
    destruct (Z.leb_spec (RateLimit.startOfDay (now E)) (insert_time E)); [|lia].
    rewrite andb_true_r. cbn [andb].
    destruct (String.eqb uid' uid && String.eqb ft' ft); reflexivity.
  - rewrite (Hfail Hne). cbn [andb]. lia.
Qed.

(** X6.  Seen by the quota check, a generation costs one unit exactly
    when it succeeds: after a 200 today's count of the signed-in user
    for the route's feature is one more, and after any other answer it
    is unchanged; the counts of other users and features never move.
    (The row is stamped by the store, here no earlier than the start of
    the day the request was made.) *)
Theorem generation_counts_once (E : env) (req : request) (w : world) (uid : string) :
  auth req = Some uid ->
  RateLimit.startOfDay (now E) <= insert_time E ->
  counts_one_more E uid "image-generator" (Image.handler E req w) w /\
  counts_one_more E uid "background-remover" (BgRemove.handler E req w) w /\
  counts_one_more E uid "resume-analyzer" (Resume.handler E req w) w.
Proof.
  intros Hauth Htime. split; [|split].
  - eapply counts_from_record; eauto. apply image_records_exactly_on_success.
  - eapply counts_from_record; eauto. apply bgRemove_records_exactly_on_success.
  - eapply counts_from_record; eauto. apply resume_records_exactly_on_success.
Qed.

Lemma generation_counts_once_witness :
  counts_one_more Cases.images_answer "user_1" "image-generator"
    (Image.handler Cases.images_answer
       (Scenario.authed "user_1" (Scenario.with_prompt "a red fox"))
       (Scenario.world_of Scenario.free_user Cases.nine_images_today))
    (Scenario.world_of Scenario.free_user Cases.nine_images_today).
Proof.
  apply (proj1 (generation_counts_once Cases.images_answer
                  (Scenario.authed "user_1" (Scenario.with_prompt "a red fox"))
                  (Scenario.world_of Scenario.free_user Cases.nine_images_today)
                  "user_1" eq_refl ltac:(vm_compute; discriminate))).
Defined.

(* ================================================================== *)
(** ** More on the quota check *)
(* ================================================================== *)

Lemma enforceDailyLimit_run (E : env) (ft : string) (req : request) (w : world) :
  fst (RateLimit.enforceDailyLimit E ft req w)
  = match auth req with
    | None => Thrown (Js.Error "Cannot destructure property 'userId' of undefined")
    | Some uid =>
        match find (fun x => String.eqb (user_id x) uid) (users (db w)) with
        | None => Returned (Sent {| status := 401; payload := ErrorBody "User not found." |})
        | Some u =>
            if isPremium u then Returned (Next req)
            else if RateLimit.reached
                      (Prisma.count_rows uid ft (RateLimit.startOfDay (now E))
                         (generationHistory (db w)))
                      (RateLimit.limit_for ft)
            then Returned (Sent {| status := 429;
                                   payload := ErrorBody
                                     (RateLimit.limit_message (RateLimit.limit_for ft) ft) |})
            else Returned (Next req)
        end
    end.
Proof.
  destruct (auth req) as [uid|] eqn:Hauth.
  - destruct (find _ (users (db w))) as [u|] eqn:Hfind.
    + destruct (isPremium u) eqn:Hprem.
      * now rewrite (enforceDailyLimit_premium E ft req uid u w Hauth Hfind Hprem).
      * rewrite (enforceDailyLimit_free E ft req uid u w Hauth Hfind Hprem).
        cbn [fst]. now destruct (RateLimit.reached _ _).
    + unfold RateLimit.enforceDailyLimit. rewrite Hauth.
      unfold bind, Prisma.user_findUnique, bind, emit, get_db, ret. cbn [db log].
      now rewrite Hfind.
  - unfold RateLimit.enforceDailyLimit. now rewrite Hauth.
Qed.



Lemma count_rows_ignores (uid ft : string) (since : Z) (others : list GenerationHistory) :
  Forall (fun g => userId g <> uid \/ feature g <> ft \/ createdAt g < since) others ->
  Prisma.count_rows uid ft since others = 0.
Proof.
  induction 1 as [|g rest Hg _ IH]; [reflexivity|].
  unfold Prisma.count_rows in *. cbn [filter].
  replace (Prisma.matches uid ft since g) with false; [exact IH|].
  unfold Prisma.matches. symmetry.
  destruct Hg as [Hu|[Hf|Ht]].
  - apply String.eqb_neq in Hu. now rewrite Hu.
  - apply String.eqb_neq in Hf. rewrite Hf. apply andb_false_iff. left.
    apply andb_false_r.
  - apply andb_false_iff. right. apply Z.leb_gt. exact Ht.
Qed.

(** X8.  The quota check looks only at the rows of the signed-in user,
    for the feature asked, created since the start of the current UTC
    day: rows of other users, of other features, or from before
    midnight change nothing in its answer.  In particular yesterday's
    usage does not count today. *)
Theorem quota_ignores_other_rows (E : env) (ft : string) (req : request)
    (w : world) (uid : string) (others : list GenerationHistory) :
  auth req = Some uid ->
  Forall (fun g => userId g <> uid \/ feature g <> ft \/
                   createdAt g < RateLimit.startOfDay (now E)) others ->
  fst (RateLimit.enforceDailyLimit E ft req
         (with_history w (others ++ generationHistory (db w))))
  = fst (RateLimit.enforceDailyLimit E ft req w).
Proof.
  intros Hauth Hothers.
  rewrite !enforceDailyLimit_run. cbn [with_history db users generationHistory].
  rewrite Hauth, count_rows_app, (count_rows_ignores uid ft _ others Hothers).
  reflexivity.
Qed.

Lemma quota_ignores_other_rows_witness :
  fst (RateLimit.enforceDailyLimit Scenario.quiet "image-generator"
         (Scenario.authed "user_1" Scenario.blank)
         (with_history (Scenario.world_of Scenario.free_user Cases.nine_images_today)
            (Cases.yesterday_and_others ++ Cases.nine_images_today)))
  = Returned (Next (Scenario.authed "user_1" Scenario.blank)).
Proof.
  refine (eq_trans
            (quota_ignores_other_rows Scenario.quiet "image-generator"
               (Scenario.authed "user_1" Scenario.blank)
               (Scenario.world_of Scenario.free_user Cases.nine_images_today)
               "user_1" Cases.yesterday_and_others eq_refl _) _).
  - apply Forall_cons; [right; right; vm_compute; reflexivity|].
    apply Forall_cons; [left; discriminate|].
    apply Forall_cons; [right; left; discriminate|].
    apply Forall_nil.
  - reflexivity.
Defined.

(* ================================================================== *)
(** ** Authentication and the store *)
(* ================================================================== *)

Lemma find_upsert_rows (uid sub mail : string) (us : list User) :
  match find (fun u => String.eqb (user_id u) uid) (Prisma.upsert_rows sub mail us) with
  | Some u' =>
      isPremium u'
      = match find (fun u => String.eqb (user_id u) uid) us with
        | Some u => isPremium u
        | None => false
        end
  | None => find (fun u => String.eqb (user_id u) uid) us = None /\ uid <> sub
  end.
Proof.
  induction us as [|u rest IH]; cbn [Prisma.upsert_rows find].
  - cbn [user_id]. destruct (String.eqb_spec sub uid) as [->|Hne].
    + reflexivity.
    + split; [reflexivity | congruence].
  - destruct (String.eqb_spec (user_id u) sub) as [Hsub|Hsub]; cbn [find user_id].
    + rewrite Hsub. destruct (String.eqb_spec sub uid); [reflexivity|].
      destruct (find _ rest); [reflexivity|]. split; [reflexivity | congruence].
    + destruct (String.eqb_spec (user_id u) uid); [reflexivity | exact IH].
Qed.

(** X9.  Signing in never changes who is premium, and never touches the
    history: [requireAuth] creates the user when it is new -- as a free
    user -- and otherwise updates the e-mail address only. *)
Theorem requireAuth_never_grants_premium (E : env) (req : request) (w : world)
    (uid : string) :
  is_premium uid (db (snd (requireAuth E req w))) = is_premium uid (db w) /\
  generationHistory (db (snd (requireAuth E req w))) = generationHistory (db w).
Proof.
  destruct (requireAuth_cases E req w) as [[r [-> _]]|[sub [mail ->]]].
  - split; reflexivity.
  - cbn [snd signed_in db generationHistory]. split; [|reflexivity].
    unfold is_premium. cbn [users].
    pose proof (find_upsert_rows uid sub mail (users (db w))) as H.
    destruct (find _ (Prisma.upsert_rows sub mail (users (db w)))) as [u'|].
    + exact H.
    + destruct H as [-> _]. reflexivity.
Qed.



(* ================================================================== *)
(** ** The usage endpoint *)
(* ================================================================== *)

Lemma usage_all_run (uid : string) (u : User) (since : Z) (table : list (string * Z))
    (w : world) :
  Usage.usage_all uid u since table w
  = (Returned (map (entry_for uid u since (generationHistory (db w))) table),
     logged w (map (fun kv => HistoryCount uid (fst kv) since) table)).
Proof.
  revert w. induction table as [|[ft lim] rest IH]; intros w.
  - cbn. now rewrite logged_nil.
  - cbn [Usage.usage_all]. unfold bind at 1. unfold Usage.usage_of.
    unfold bind at 1. unfold Prisma.generationHistory_count, bind, emit, get_db, ret.
    cbn beta iota. cbn [db log].
    change {| db := db w; log := log w ++ [HistoryCount uid ft since] |}
      with (logged w [HistoryCount uid ft since]).
    rewrite IH. rewrite logged_logged. reflexivity.
Qed.

Lemma usage_handler_run (E : env) (req : request) (uid : string) (u : User) (w : world) :
  auth req = Some uid ->
  find (fun x => String.eqb (user_id x) uid) (users (db w)) = Some u ->
  fst (Usage.handler E req w)
  = Returned
      {| Usage.usage_status := 200;
         Usage.usage_payload :=
           Usage.UsageBody
             (map (entry_for uid u (RateLimit.startOfDay (now E))
                     (generationHistory (db w))) Usage.FREE_LIMITS)
             (isPremium u)
             (RateLimit.startOfDay (now E) + 24 * 60 * 60 * 1000) |}.
Proof.
  intros Hauth Hfind.
  unfold Usage.handler, try_catch. rewrite Hauth.
  unfold bind at 1. unfold Prisma.user_findUnique, bind, emit, get_db, ret.
  cbn beta iota. cbn [db log]. rewrite Hfind.
  rewrite usage_all_run. reflexivity.
Qed.

Lemma usage_table_limits :
  Forall (fun kv => RateLimit.limit_for (fst kv) = RateLimit.Number (snd kv))
         Usage.FREE_LIMITS.
Proof. repeat constructor. Qed.

(** X11.  The usage endpoint and the quota check agree.  For a user
    that is in the store the endpoint lists the four features of the
    table, and the quota check lets a request for a feature through
    exactly when the endpoint reports that feature as unlimited or with
    a remainder above zero.  The reset time it reports is the next UTC
    midnight: later than now, and at most a day away. *)
Theorem usage_agrees_with_quota (E : env) (req : request) (uid : string) (u : User)
    (w : world) :
  auth req = Some uid ->
  find (fun x => String.eqb (user_id x) uid) (users (db w)) = Some u ->
  exists entries reset,
    fst (Usage.handler E req w)
    = Returned {| Usage.usage_status := 200;
                  Usage.usage_payload := Usage.UsageBody entries (isPremium u) reset |} /\
    map Usage.entry_feature entries = map fst RateLimit.FREE_LIMITS /\
    Forall (fun en =>
              fst (RateLimit.enforceDailyLimit E (Usage.entry_feature en) req w)
              = Returned (Next req)
              <-> (Usage.remaining en = Usage.Unlimited \/
                   exists left, Usage.remaining en = Usage.Limited left /\ 0 < left))
           entries /\
    now E < reset <= now E + 86400000 /\ reset mod 86400000 = 0.
Proof.
  intros Hauth Hfind. eexists _, _.
  split; [apply (usage_handler_run E req uid u w Hauth Hfind)|].
  split; [reflexivity|]. split.
  - apply Forall_map.
    eapply Forall_impl; [|exact usage_table_limits].
    intros [ft lim] Hlim. cbn [fst snd] in Hlim.
    rewrite enforceDailyLimit_run, Hauth, Hfind.
    unfold entry_for. cbn [Usage.entry_feature Usage.remaining fst snd].
    destruct (isPremium u).
    + split; [intros _; now left | reflexivity].
    + rewrite Hlim. cbn [RateLimit.reached].
      set (count := Prisma.count_rows uid ft (RateLimit.startOfDay (now E))
                      (generationHistory (db w))).
      destruct (Z.leb_spec lim count) as [Hle|Hgt].
      * split; [discriminate|].
        intros [Hun|[left [Hl Hpos]]]; [discriminate|].
        injection Hl as <-. lia.
      * split; [|reflexivity].
        intros _. right. exists (Z.max 0 (lim - count)). split; [reflexivity | lia].
  - pose proof (startOfDay_bounds (now E)) as [Hb Hmod].
    split; [lia|].
    replace (24 * 60 * 60 * 1000) with (1 * 86400000) by reflexivity.
    rewrite Z.mod_add by lia. exact Hmod.
Qed.

Lemma usage_agrees_with_quota_witness :
  exists entries reset,
    fst (Usage.handler Scenario.quiet (Scenario.authed "user_1" Scenario.blank)
           (Scenario.world_of Scenario.free_user Scenario.ten_images_today))
    = Returned {| Usage.usage_status := 200;
                  Usage.usage_payload := Usage.UsageBody entries false reset |} /\
    map Usage.entry_feature entries = map fst RateLimit.FREE_LIMITS.
Proof.
  destruct (usage_agrees_with_quota Scenario.quiet
              (Scenario.authed "user_1" Scenario.blank) "user_1" Scenario.free_user
              (Scenario.world_of Scenario.free_user Scenario.ten_images_today)
              eq_refl eq_refl) as [entries [reset [Hrun [Hfeatures _]]]].
  exists entries, reset. split; assumption.
Defined.

(* ================================================================== *)
(** ** The mask of the background removal *)
(* ================================================================== *)

Lemma after_semicolon_append (mime rest : string) :
  ~ In ";"%char (list_ascii_of_string mime) ->
  BgRemove.after_semicolon (mime ++ String ";" rest) = Some (mime, rest).
Proof.
  induction mime as [|c mime IH]; cbn [append BgRemove.after_semicolon list_ascii_of_string];
    intros Hnot.
  - reflexivity.
  - destruct (Ascii.eqb_spec c ";") as [->|Hne].
    + exfalso. apply Hnot. now left.
    + rewrite IH; [reflexivity|]. intros Hin. apply Hnot. now right.
Qed.

(** X12.  Stripping undoes a data-URI prefix: a mask that arrives as
    [data:image/<type>;base64,<payload>] is cut down to the payload,
    whatever the image type, and a text that does not begin with
    [data:image/] is left as it is. *)
Theorem strip_data_uri_takes_the_payload (mime payload other : string) :
  mime <> EmptyString ->
  ~ In ";"%char (list_ascii_of_string mime) ->
  Js.startsWith "data:image/" other = false ->
  BgRemove.strip_data_uri ("data:image/" ++ mime ++ ";base64," ++ payload) = payload /\
  BgRemove.strip_data_uri other = other.
Proof.
  intros Hmime Hsemi Hother. split.
  - unfold BgRemove.strip_data_uri.
    change (Js.startsWith "data:image/" ("data:image/" ++ mime ++ ";base64," ++ payload))
      with true. cbn iota.
    change (BgRemove.drop 11 ("data:image/" ++ mime ++ ";base64," ++ payload))
      with (mime ++ String ";" ("base64," ++ payload)).
    rewrite (after_semicolon_append mime _ Hsemi).
    assert (Js.truthy_string mime = true) as ->.
    { destruct mime; [congruence | reflexivity]. }
    reflexivity.
  - unfold BgRemove.strip_data_uri. now rewrite Hother.
Qed.

Lemma strip_data_uri_takes_the_payload_witness :
  BgRemove.strip_data_uri "data:image/png;base64,iVBORw0KGgo=" = "iVBORw0KGgo=" /\
  BgRemove.strip_data_uri "iVBORw0KGgo=" = "iVBORw0KGgo=".
Proof.
  apply (strip_data_uri_takes_the_payload "png" "iVBORw0KGgo=" "iVBORw0KGgo=").
  - discriminate.
  - cbn. intros [H|[H|[H|[]]]]; discriminate.
  - reflexivity.
Defined.

Lemma base64_run_spec (s : string) :
  s = fst (BgRemove.base64_run s) ++ snd (BgRemove.base64_run s) /\
  Forall (fun c => BgRemove.is_base64_char c = true)
         (list_ascii_of_string (fst (BgRemove.base64_run s))).
Proof.
  induction s as [|c s [IHeq IHall]]; cbn [BgRemove.base64_run].
  - split; [reflexivity | constructor].
  - destruct (BgRemove.is_base64_char c) eqn:Hc.
    + destruct (BgRemove.base64_run s) as [run tail]. cbn [fst snd] in *.
      split; [cbn; now rewrite <- IHeq | now constructor].
    + split; [reflexivity | constructor].
Qed.

Lemma startsWith_quote (s : string) :
  Js.startsWith (String Js.quote EmptyString) s = true ->
  exists rest, s = String Js.quote rest.
Proof.
  destruct s as [|c rest]; cbn [Js.startsWith]; [discriminate|].
  intros H. apply andb_true_iff in H. destruct H as [Hc _].
  apply Ascii.eqb_eq in Hc. subst. now exists rest.
Qed.

(** X13.  The last resort of the mask extraction never makes a mask out
    of a short or foreign text: what it finds in the serialised answer
    stands there between double quotes, is at least a hundred
    characters long, and consists of base64 characters only. *)
Theorem quoted_base64_is_long_and_quoted (text run : string) :
  BgRemove.quoted_base64 text = Some run ->
  100 <= Js.length run /\
  Forall (fun c => BgRemove.is_base64_char c = true) (list_ascii_of_string run) /\
  exists before after,
    text = before ++ String Js.quote (run ++ String Js.quote after).
Proof.
  induction text as [|c text IH]; cbn [BgRemove.quoted_base64]; [discriminate|].
  intros Hfound.
  assert (forall before after,
            text = before ++ String Js.quote (run ++ String Js.quote after) ->
            String c text
            = String c before ++ String Js.quote (run ++ String Js.quote after))
    as Hshift by (intros before after ->; reflexivity).
  destruct (Ascii.eqb_spec c Js.quote) as [->|Hne].
  - pose proof (base64_run_spec text) as [Heq Hall].
    destruct (BgRemove.base64_run text) as [run' tail]. cbn [fst snd] in *.
    destruct (Z.leb_spec 100 (Js.length run')) as [Hlen|Hlen]; cbn [andb] in Hfound.
    + destruct (Js.startsWith (String Js.quote EmptyString) tail) eqn:Hq.
      * injection Hfound as <-.
        destruct (startsWith_quote tail Hq) as [after ->].
        split; [exact Hlen|]. split; [exact Hall|].
        exists EmptyString, after. cbn [append]. now rewrite Heq at 1.
      * destruct (IH Hfound) as [H1 [H2 [before [after H3]]]].
        split; [exact H1|]. split; [exact H2|].
        exists (String Js.quote before), after. now apply Hshift.
    + destruct (IH Hfound) as [H1 [H2 [before [after H3]]]].
      split; [exact H1|]. split; [exact H2|].
      exists (String Js.quote before), after. now apply Hshift.
  - destruct (IH Hfound) as [H1 [H2 [before [after H3]]]].
    split; [exact H1|]. split; [exact H2|].
    exists (String c before), after. now apply Hshift.
Qed.

Lemma quoted_base64_is_long_and_quoted_witness :
  100 <= Js.length Cases.long_mask.
Proof.
  apply (proj1 (quoted_base64_is_long_and_quoted Cases.serialised_answer
                  Cases.long_mask eq_refl)).
Defined.

(* ================================================================== *)
(** ** Uploads of the wrong type *)
(* ================================================================== *)





(* ================================================================== *)
(** ** Trimming, and the text of a PDF *)
(* ================================================================== *)

Lemma append_nil_r (s : string) : s ++ EmptyString = s.
Proof. induction s as [|c s IH]; cbn; [reflexivity | now rewrite IH]. Qed.

Lemma append_assoc (a b c : string) : (a ++ b) ++ c = a ++ (b ++ c).
Proof. induction a as [|x a IH]; cbn; [reflexivity | now rewrite IH]. Qed.

Lemma length_append (a b : string) :
  String.length (a ++ b) = (String.length a + String.length b)%nat.
Proof. induction a as [|x a IH]; cbn; [reflexivity | now rewrite IH]. Qed.

Lemma rev_onto_append (s acc : string) : Js.rev_onto s acc = Js.reverse s ++ acc.
Proof.
  unfold Js.reverse. revert acc.
  induction s as [|c s IH]; intros acc; cbn [Js.rev_onto]; [reflexivity|].
  rewrite IH, (IH (String c EmptyString)), append_assoc. reflexivity.
Qed.

Lemma reverse_cons (c : ascii) (s : string) :
  Js.reverse (String c s) = Js.reverse s ++ String c EmptyString.
Proof. unfold Js.reverse at 1. cbn [Js.rev_onto]. apply rev_onto_append. Qed.

Lemma reverse_append (a b : string) :
  Js.reverse (a ++ b) = Js.reverse b ++ Js.reverse a.
Proof.
  induction a as [|c a IH]; cbn [append].
  - now rewrite append_nil_r.
  - now rewrite !reverse_cons, IH, append_assoc.
Qed.

Lemma reverse_involutive (s : string) : Js.reverse (Js.reverse s) = s.
Proof.
  induction s as [|c s IH]; [reflexivity|].
  rewrite reverse_cons, reverse_append, IH. reflexivity.
Qed.

Lemma trimStart_suffix (s : string) : exists p, s = p ++ Js.trimStart s.
Proof.
  induction s as [|c s [p Hp]]; cbn [Js.trimStart].
  - now exists EmptyString.
  - destruct (Js.is_whitespace c).
    + exists (String c p). cbn. now rewrite <- Hp.
    + now exists EmptyString.
Qed.

Lemma trimStart_length (s : string) :
  (String.length (Js.trimStart s) <= String.length s)%nat.
Proof.
  destruct (trimStart_suffix s) as [p Hp].
  rewrite Hp at 2. rewrite length_append. lia.
Qed.

Lemma trimStart_idempotent (s : string) :
  Js.trimStart (Js.trimStart s) = Js.trimStart s.
Proof.
  induction s as [|c s IH]; cbn [Js.trimStart]; [reflexivity|].
  destruct (Js.is_whitespace c) eqn:Hc; [exact IH|].
  cbn [Js.trimStart]. now rewrite Hc.
Qed.

Lemma trimEnd_prefix (s : string) : exists q, s = Js.trimEnd s ++ q.
Proof.
  unfold Js.trimEnd.
  destruct (trimStart_suffix (Js.reverse s)) as [p Hp].
  exists (Js.reverse p).
  rewrite <- reverse_append, <- Hp. symmetry. apply reverse_involutive.
Qed.

Lemma trimEnd_idempotent (s : string) : Js.trimEnd (Js.trimEnd s) = Js.trimEnd s.
Proof.
  unfold Js.trimEnd. now rewrite reverse_involutive, trimStart_idempotent.
Qed.

Lemma trimStart_of_prefix (t q : string) :
  Js.trimStart (t ++ q) = t ++ q -> Js.trimStart t = t.
Proof.
  destruct t as [|c t]; [reflexivity|].
  cbn [append Js.trimStart].
  destruct (Js.is_whitespace c); [|reflexivity].
  intros H. pose proof (trimStart_length (t ++ q)) as Hlen.
  rewrite H in Hlen. cbn [String.length] in Hlen. lia.
Qed.

Lemma trim_idempotent (s : string) : Js.trim (Js.trim s) = Js.trim s.
Proof.
  unfold Js.trim.
  assert (Js.trimStart (Js.trimEnd (Js.trimStart s)) = Js.trimEnd (Js.trimStart s)) as ->.
  { destruct (trimEnd_prefix (Js.trimStart s)) as [q Hq].
    apply trimStart_of_prefix with (q := q).
    rewrite <- Hq. apply trimStart_idempotent. }
  apply trimEnd_idempotent.
Qed.

Lemma extract_error_shape (E : env) (buffer : bytes) (e : Js.error) :
  PdfExtract.extractTextFromPdf E buffer = inl e ->
  exists m, e = Js.Error ("Failed to extract text from PDF: " ++ m).
Proof.
  unfold PdfExtract.extractTextFromPdf.
  destruct (getDocument E buffer) as [e0|pages].
  - intros H. injection H as <-. eexists. reflexivity.
  - destruct (negb (Js.truthy_string _)); [|discriminate].
    intros H. injection H as <-. eexists. reflexivity.
Qed.

(** X16.  The text extracted from a PDF is never empty and carries no
    white space at either end (trimming it again changes nothing); a
    page that cannot be read is passed over without failing the
    document.  Every failure, whatever its cause, is reported as an
    error whose message begins with "Failed to extract text from PDF: ". *)
Theorem extracted_text_is_trimmed_and_nonempty (E : env) (buffer : bytes) :
  match PdfExtract.extractTextFromPdf E buffer with
  | inr text =>
      text <> EmptyString /\ Js.trim text = text /\
      exists pages,
        getDocument E buffer = inr pages /\
        text = Js.trim (PdfExtract.join PdfExtract.newline
                          (map (fun page => match page with
                                            | Some items => PdfExtract.join " " items
                                            | None => EmptyString
                                            end) pages))
  | inl e =>
      Js.startsWith "Failed to extract text from PDF: " (Js.message e) = true /\
      Js.response_status e = None
  end.
Proof.
  destruct (PdfExtract.extractTextFromPdf E buffer) as [e|text] eqn:Hrun.
  - destruct (extract_error_shape E buffer e Hrun) as [m ->].
    split; reflexivity.
  - unfold PdfExtract.extractTextFromPdf in Hrun.
    destruct (getDocument E buffer) as [e0|pages]; [discriminate|].
    destruct (Js.truthy_string _) eqn:Htruthy; cbn [negb] in Hrun; [|discriminate].
    injection Hrun as <-. split; [|split].
    + now apply truthy_string_nonempty.
    + apply trim_idempotent.
    + exists pages. split; reflexivity.
Qed.

(** X17.  A resume that cannot be read, or whose text is shorter than a
    hundred characters, never reaches a provider: the handler answers
    500 "Resume analysis failed. Try again later." in the first case
    and 400 in the second, and leaves the store and the log as they
    were. *)
Theorem unreadable_or_short_resume_is_refused (E : env) (req : request) (f : upload)
    (w : world) :
  file req = Some f ->
  (forall e, PdfExtract.extractTextFromPdf E (buffer f) = inl e ->
     Resume.handler E req w
     = (Returned {| status := 500;
                    payload := ErrorBody "Resume analysis failed. Try again later." |},
        w)) /\
  (forall text, PdfExtract.extractTextFromPdf E (buffer f) = inr text ->
     Js.length text < 100 ->
     Resume.handler E req w
     = (Returned {| status := 400;
                    payload := ErrorBody
                      "❌ Resume too short or empty. Please upload a valid resume." |},
        w)).
Proof.
  intros Hfile. split.
  - intros e He. destruct (extract_error_shape E (buffer f) e He) as [m ->].
    unfold Resume.handler, Resume.handler_with. rewrite Hfile.
    unfold try_catch, bind. rewrite He. reflexivity.
  - intros text Htext Hshort.
    unfold Resume.handler, Resume.handler_with. rewrite Hfile.
    unfold try_catch, bind. rewrite Htext. unfold Resume.lift, ret at 1.
    assert ((Js.length text <? 100) = true) as -> by (apply Z.ltb_lt; exact Hshort).
    rewrite orb_true_r. reflexivity.
Qed.

Lemma unreadable_or_short_resume_is_refused_witness :
  Resume.handler Cases.two_pages (Cases.with_upload "application/pdf")
    (Scenario.world_of Scenario.free_user [])
  = (Returned {| status := 400;
                 payload := ErrorBody
                   "❌ Resume too short or empty. Please upload a valid resume." |},
     Scenario.world_of Scenario.free_user []).
Proof.
  apply (proj2 (unreadable_or_short_resume_is_refused Cases.two_pages
                  (Cases.with_upload "application/pdf")
                  {| originalname := "upload.bin"; mimetype := "application/pdf";
                     buffer := [] |}
                  (Scenario.world_of Scenario.free_user []) eq_refl)
           "Jane Doe" eq_refl).
  vm_compute. reflexivity.
Defined.

(* ================================================================== *)
(** ** More on the history listing *)
(* ================================================================== *)

Lemma history_handler_run (E : env) (req : request) (uid : string) (k : Z) (w : world) :
  auth req = Some uid ->
  History.page_limit req = Js.Int k ->
  let items := map select
                 (History.page k (History.page_cursor req)
                    (History.sort_desc (owned_rows uid w))) in
  History.handler E req w
  = (Returned (json_ok (HistoryBody items
                 (listed items k (Z.of_nat (List.length (owned_rows uid w))) req))),
     logged w [HistoryFindMany uid; HistoryCountAll uid]).
Proof.
  intros Hauth Hlimit items.
  unfold History.handler, try_catch, bind, History.findMany, History.count,
    bind, emit, get_db, ret.
  rewrite Hlimit, Hauth. cbn beta iota. cbn [db log].
  unfold logged. rewrite <- app_assoc. reflexivity.
Qed.

Lemma history_handler_refuses (E : env) (req : request) (w : world) :
  (forall k, History.page_limit req <> Js.Int k) ->
  exists detail,
    fst (History.handler E req w)
    = Returned {| status := 500;
                  payload := ErrorDetailBody "Failed to fetch history" detail |}.
Proof.
  intros Hnot.
  unfold History.handler, try_catch, bind, History.findMany, bind, emit.
  destruct (History.page_limit req) as [|k| | |] eqn:Hl;
    try (eexists; reflexivity).
  exfalso. now apply (Hnot k).
Qed.

Lemma sort_desc_In (x : GenerationHistory) (rows : list GenerationHistory) :
  In x (History.sort_desc rows) -> In x rows.
Proof.
  induction rows as [|g rest IH]; cbn [History.sort_desc]; [tauto|].
  intros Hin. destruct (insert_desc_In g x _ Hin) as [->|Hin'];
    [now left | right; now apply IH].
Qed.

Lemma after_cursor_In (c : string) (x : GenerationHistory) (rows : list GenerationHistory) :
  In x (History.after_cursor c rows) -> In x rows.
Proof.
  induction rows as [|r rest IH]; cbn [History.after_cursor]; [tauto|].
  destruct (String.eqb (id r) c); intros Hin; right; [exact Hin | now apply IH].
Qed.

Lemma before_cursor_In (c : string) (x : GenerationHistory)
    (rows pre : list GenerationHistory) :
  History.before_cursor c rows = Some pre -> In x pre -> In x rows.
Proof.
  revert pre. induction rows as [|r rest IH]; cbn [History.before_cursor];
    intros pre; [discriminate|].
  destruct (String.eqb (id r) c).
  - intros H. injection H as <-. intros [].
  - destruct (History.before_cursor c rest) as [pre'|]; [|discriminate].
    intros H. injection H as <-. intros [->|Hin]; [now left | right; now apply (IH pre')].
Qed.

Lemma skipn_In {A} (n : nat) (l : list A) (x : A) : In x (skipn n l) -> In x l.
Proof.
  revert l. induction n as [|n IH]; intros [|a l]; cbn [skipn]; try tauto.
  intros Hin. right. now apply IH.
Qed.

Lemma page_In (k : Z) (cursor : option string) (x : GenerationHistory)
    (rows : list GenerationHistory) :
  In x (History.page k cursor rows) -> In x rows.
Proof.
  unfold History.page, History.last_rows.
  destruct (0 <=? k).
  - intros Hin. apply firstn_incl in Hin.
    destruct cursor as [c|]; [now apply (after_cursor_In c) | exact Hin].
  - intros Hin. apply skipn_In in Hin.
    destruct cursor as [c|]; [|exact Hin].
    destruct (History.before_cursor c rows) as [pre|] eqn:Hpre; [|destruct Hin].
    now apply (before_cursor_In c x rows pre).
Qed.

(** X18.  The listing shows a user nothing but that user's own rows,
    whatever limit and cursor are asked for, and the total it reports is
    the number of that user's rows. *)
Theorem listing_shows_own_rows_only (E : env) (req : request) (w : world)
    (uid : string) (items : list history_item) (pg : pagination) (st : Z) :
  auth req = Some uid ->
  fst (History.handler E req w)
  = Returned {| status := st; payload := HistoryBody items pg |} ->
  Forall (fun it => exists g, In g (generationHistory (db w)) /\
                              userId g = uid /\ it = select g) items /\
  totalCount pg = Z.of_nat (List.length (owned_rows uid w)).
Proof.
  intros Hauth Hrun.
  destruct (History.page_limit req) as [|k| | |] eqn:Hl.
  2: { rewrite (history_handler_run E req uid k w Hauth Hl) in Hrun.
       cbn [fst json_ok] in Hrun. injection Hrun as _ <- <-.
       split; [|reflexivity].
       apply Forall_forall. intros it Hit.
       apply in_map_iff in Hit. destruct Hit as [g [<- Hg]].
       apply page_In, sort_desc_In in Hg.
       unfold owned_rows in Hg. apply filter_In in Hg. destruct Hg as [Hin Hown].
       exists g. split; [exact Hin|]. split; [|reflexivity].
       now apply String.eqb_eq. }
  all: destruct (history_handler_refuses E req w) as [detail Hd];
    [intros k Hk; rewrite Hl in Hk; discriminate
    | rewrite Hd in Hrun; discriminate].
Qed.

Lemma listing_shows_own_rows_only_witness :
  exists items pg,
    fst (History.handler Scenario.quiet
           (Scenario.authed "user_1" (Scenario.listing (Js.Int 50) None))
           (Scenario.world_of Scenario.free_user Cases.five_rows))
    = Returned {| status := 200; payload := HistoryBody items pg |} /\
    totalCount pg = 4.
Proof.
  eexists _, _. split; [vm_compute; reflexivity|].
  apply (proj2 (listing_shows_own_rows_only Scenario.quiet
                  (Scenario.authed "user_1" (Scenario.listing (Js.Int 50) None))
                  (Scenario.world_of Scenario.free_user Cases.five_rows)
                  "user_1" _ _ 200 eq_refl eq_refl)).
Defined.

Lemma insert_desc_perm (g : GenerationHistory) (rows : list GenerationHistory) :
  Permutation (g :: rows) (History.insert_desc g rows).
Proof.
  induction rows as [|r rest IH]; cbn [History.insert_desc]; [reflexivity|].
  destruct (createdAt r <=? createdAt g); [reflexivity|].
  rewrite perm_swap. now apply perm_skip.
Qed.

Lemma sort_desc_perm (rows : list GenerationHistory) :
  Permutation rows (History.sort_desc rows).
Proof.
  induction rows as [|g rest IH]; cbn [History.sort_desc]; [reflexivity|].
  rewrite <- insert_desc_perm. now apply perm_skip.
Qed.

Lemma sort_desc_length (rows : list GenerationHistory) :
  List.length (History.sort_desc rows) = List.length rows.
Proof. symmetry. apply Permutation_length, sort_desc_perm. Qed.

(** X19.  A first page loses nothing: when the user has no more rows
    than the page limit, the listing without a cursor holds every row of
    the user exactly once (newest first), and when the user has more it
    holds exactly as many rows as the limit. *)
Theorem first_page_holds_every_row (E : env) (req : request) (w : world)
    (uid : string) (k : Z) :
  auth req = Some uid ->
  History.page_limit req = Js.Int k ->
  0 < k ->
  History.page_cursor req = None ->
  exists items pg,
    fst (History.handler E req w) = Returned (json_ok (HistoryBody items pg)) /\
    History.descending items /\
    (Z.of_nat (List.length (owned_rows uid w)) <= k ->
     Permutation (map select (owned_rows uid w)) items) /\
    (k < Z.of_nat (List.length (owned_rows uid w)) ->
     Z.of_nat (List.length items) = k /\ hasNextPage pg = true).
Proof.
  intros Hauth Hlimit Hk Hcursor.
  eexists _, _. rewrite (history_handler_run E req uid k w Hauth Hlimit).
  split; [reflexivity|].
  rewrite Hcursor. unfold History.page.
  destruct (Z.leb_spec 0 k) as [_|Hneg]; [|lia].
  split; [|split].
  - apply select_sorted, firstn_sorted, sort_desc_sorted.
  - intros Hfew. rewrite firstn_all2.
    + apply Permutation_map, sort_desc_perm.
    + rewrite sort_desc_length. lia.
  - intros Hmany.
    assert (Z.of_nat (List.length
                        (map select (firstn (Z.to_nat k)
                                       (History.sort_desc (owned_rows uid w))))) = k)
      as Hlen.
    { rewrite length_map, firstn_length_le; [lia|]. rewrite sort_desc_length. lia. }
    split; [exact Hlen|].
    cbn [listed hasNextPage]. apply Z.eqb_eq. exact Hlen.
Qed.

Lemma first_page_holds_every_row_witness :
  exists items pg,
    fst (History.handler Scenario.quiet
           (Scenario.authed "user_1" (Scenario.listing Js.NaN None))
           (Scenario.world_of Scenario.free_user Cases.five_rows))
    = Returned (json_ok (HistoryBody items pg)) /\
    History.descending items.
Proof.
  destruct (first_page_holds_every_row Scenario.quiet
              (Scenario.authed "user_1" (Scenario.listing Js.NaN None))
              (Scenario.world_of Scenario.free_user Cases.five_rows)
              "user_1" 20 eq_refl eq_refl ltac:(lia) eq_refl)
    as [items [pg [Hrun [Hsorted _]]]].
  exists items, pg. split; assumption.
Defined.

Lemma firstn_add {A} (a b : nat) (l : list A) :
  firstn (a + b) l = (firstn a l ++ firstn b (skipn a l))%list.
Proof.
  revert l. induction a as [|a IH]; intros l; [reflexivity|].
  destruct l as [|x l]; cbn [Nat.add firstn skipn app].
  - now rewrite firstn_nil.
  - now rewrite IH.
Qed.

Lemma after_last_of_firstn (rows : list GenerationHistory) (n : nat)
    (x : GenerationHistory) (rest : list GenerationHistory) :
  NoDup (map id rows) ->
  rev (firstn n rows) = x :: rest ->
  History.after_cursor (id x) rows = skipn n rows.
Proof.
  intros Hnodup Hrev.
  assert (firstn n rows = (rev rest ++ [x])%list) as Hfirst.
  { rewrite <- (rev_involutive (firstn n rows)), Hrev. reflexivity. }
  rewrite <- (firstn_skipn n rows) at 1. rewrite Hfirst, <- app_assoc. cbn [app].
  apply after_cursor_split; [reflexivity|].
  rewrite <- (firstn_skipn n rows), Hfirst, <- app_assoc, map_app in Hnodup.
  cbn [app map] in Hnodup. apply NoDup_remove_2 in Hnodup.
  intros Hin. apply Hnodup. apply in_or_app. now left.
Qed.

(** X20.  The cursor a page hands out continues the listing where the
    page stopped.  When ids are unique, a first page of [k] rows
    followed by the page asked for with its [nextCursor] and the same
    limit gives, together, the first [2 k] rows of the user's listing:
    no row is repeated and none is skipped. *)
Theorem next_cursor_continues_the_listing (E : env) (first second : request)
    (w : world) (uid : string) (k : Z) (c : string)
    (items1 : list history_item) (pg1 : pagination) :
  auth first = Some uid -> auth second = Some uid ->
  History.page_limit first = Js.Int k -> History.page_limit second = Js.Int k ->
  0 < k ->
  History.page_cursor first = None ->
  NoDup (map id (owned_rows uid w)) ->
  fst (History.handler E first w) = Returned (json_ok (HistoryBody items1 pg1)) ->
  nextCursor pg1 = Some c ->
  History.page_cursor second = Some c ->
  exists items2 pg2,
    fst (History.handler E second w) = Returned (json_ok (HistoryBody items2 pg2)) /\
    (items1 ++ items2)%list
    = map select (firstn (Z.to_nat k + Z.to_nat k)
                    (History.sort_desc (owned_rows uid w))).
Proof.
  intros Hauth1 Hauth2 Hl1 Hl2 Hk Hc1 Hnodup Hrun1 Hnext Hc2.
  rewrite (history_handler_run E first uid k w Hauth1 Hl1) in Hrun1.
  cbn [fst json_ok] in Hrun1. injection Hrun1 as <- <-.
  eexists _, _. rewrite (history_handler_run E second uid k w Hauth2 Hl2).
  split; [reflexivity|].
  rewrite Hc1, Hc2. unfold History.page.
  destruct (Z.leb_spec 0 k) as [_|Hneg]; [|lia].
  set (rows := History.sort_desc (owned_rows uid w)) in *.
  cbn [listed nextCursor] in Hnext. rewrite Hc1 in Hnext. unfold History.page in Hnext.
  destruct (Z.leb_spec 0 k) as [_|Hneg]; [|lia]. fold rows in Hnext.
  rewrite <- map_rev in Hnext.
  destruct (rev (firstn (Z.to_nat k) rows)) as [|x rest] eqn:Hrev; [discriminate|].
  cbn [map] in Hnext. injection Hnext as <-. cbn [select item_id].
  assert (NoDup (map id rows)) as Hnodup'.
  { eapply Permutation_NoDup; [|exact Hnodup].
    apply Permutation_map, sort_desc_perm. }
  rewrite (after_last_of_firstn rows (Z.to_nat k) x rest Hnodup' Hrev).
  rewrite <- map_app, <- firstn_add. reflexivity.
Qed.

Lemma next_cursor_continues_the_listing_witness :
  exists items2 pg2,
    fst (History.handler Scenario.quiet
           (Scenario.authed "user_1" (Scenario.listing (Js.Int 2) (Some "g4")))
           (Scenario.world_of Scenario.free_user Cases.five_rows))
    = Returned (json_ok (HistoryBody items2 pg2)) /\
    map item_id items2 = ["g3"; "g1"].
Proof.
  destruct (next_cursor_continues_the_listing Scenario.quiet
              (Scenario.authed "user_1" (Scenario.listing (Js.Int 2) None))
              (Scenario.authed "user_1" (Scenario.listing (Js.Int 2) (Some "g4")))
              (Scenario.world_of Scenario.free_user Cases.five_rows)
              "user_1" 2 "g4" _ _
              eq_refl eq_refl eq_refl eq_refl ltac:(lia) eq_refl
              ltac:(repeat constructor; cbn; intuition discriminate)
              eq_refl eq_refl eq_refl)
    as [items2 [pg2 [Hrun Hcat]]].
  exists items2, pg2. split; [exact Hrun|].
  apply (f_equal (map item_id)) in Hcat. rewrite map_app in Hcat.
  vm_compute in Hcat. injection Hcat as Hcat. exact Hcat.
Defined.

Lemma sort_desc_snoc_newest (x : GenerationHistory) (rows : list GenerationHistory) :
  Forall (fun g => createdAt g < createdAt x) rows ->
  History.sort_desc (rows ++ [x]) = x :: History.sort_desc rows.
Proof.
  induction 1 as [|g rest Hg _ IH]; [reflexivity|].
  cbn [app History.sort_desc]. rewrite IH. cbn [History.insert_desc].
  destruct (Z.leb_spec (createdAt x) (createdAt g)); [lia | reflexivity].
Qed.

Lemma listing_after_record (E : env) (req lreq : request) (ft key : string)
    (good : string -> Prop) (run : outcome response * world) (w : world)
    (uid : string) (k : Z) :
  auth req = Some uid ->
  Forall (fun g => createdAt g < insert_time E) (owned_rows uid w) ->
  auth lreq = Some uid ->
  History.page_limit lreq = Js.Int k -> 0 < k ->
  History.page_cursor lreq = None ->
  records_exactly_on_success E req ft key good run w ->
  heads_the_listing E lreq ft run.
Proof.
  intros Hauth Holder Hlauth Hlimit Hk Hcursor [r0 [w0 [Hrun [_ [Hok _]]]]] r w' Hrun' H200.
  rewrite Hrun in Hrun'. injection Hrun' as <- <-.
  destruct (Hok H200) as [uid0 [text [i [Hauth0 [_ [_ Hrows]]]]]].
  rewrite Hauth in Hauth0. injection Hauth0 as <-.
  rewrite (history_handler_run E lreq uid k w0 Hlauth Hlimit).
  rewrite Hcursor. unfold History.page.
  destruct (Z.leb_spec 0 k) as [_|Hneg]; [|lia].
  unfold owned_rows at 1. rewrite Hrows, filter_app. cbn [filter userId].
  rewrite String.eqb_refl.
  rewrite sort_desc_snoc_newest by exact Holder.
  destruct (Z.to_nat k) as [|n] eqn:Hn; [lia|].
  cbn [firstn map select id feature input output createdAt fst json_ok].
  eexists _, _, _, _. reflexivity.
Qed.

(** X21.  A generation that has just succeeded heads the history: when
    the store stamps the new row later than the rows the user already
    has, a listing without cursor asked for by the same user right
    after a 200 begins with the row that was written, for each of the
    three generation routes. *)
Theorem new_generation_is_listed_first (E : env) (req lreq : request) (w : world)
    (uid : string) (k : Z) :
  auth req = Some uid ->
  Forall (fun g => createdAt g < insert_time E) (owned_rows uid w) ->
  auth lreq = Some uid ->
  History.page_limit lreq = Js.Int k -> 0 < k ->
  History.page_cursor lreq = None ->
  heads_the_listing E lreq "image-generator" (Image.handler E req w) /\
  heads_the_listing E lreq "background-remover" (BgRemove.handler E req w) /\
  heads_the_listing E lreq "resume-analyzer" (Resume.handler E req w).
Proof.
  intros Hauth Holder Hlauth Hlimit Hk Hcursor. split; [|split].
  - apply (listing_after_record E req lreq "image-generator" "image" _ _ w uid k
             Hauth Holder Hlauth Hlimit Hk Hcursor
             (image_records_exactly_on_success Image.models E req w)).
  - apply (listing_after_record E req lreq "background-remover" "image" _ _ w uid k
             Hauth Holder Hlauth Hlimit Hk Hcursor
             (bgRemove_records_exactly_on_success BgRemove.models E req w)).
  - apply (listing_after_record E req lreq "resume-analyzer" "analysis" _ _ w uid k
             Hauth Holder Hlauth Hlimit Hk Hcursor
             (resume_records_exactly_on_success Resume.models E req w)).
Qed.

Lemma new_generation_is_listed_first_witness :
  exists i o rest pg,
    fst (History.handler Cases.images_answer
           (Scenario.authed "user_1" (Scenario.listing Js.NaN None))
           (snd (Image.handler Cases.images_answer
                   (Scenario.authed "user_1" (Scenario.with_prompt "a red fox"))
                   (Scenario.world_of Scenario.free_user Cases.nine_images_today))))
    = Returned (json_ok (HistoryBody
                  ({| item_id := "gen_new"; item_feature := "image-generator";
                      item_input := i; item_output := o;
                      item_createdAt := Scenario.one_am + 60000 |} :: rest)
                  pg)).
Proof.
  apply (proj1 (new_generation_is_listed_first Cases.images_answer
                  (Scenario.authed "user_1" (Scenario.with_prompt "a red fox"))
                  (Scenario.authed "user_1" (Scenario.listing Js.NaN None))
                  (Scenario.world_of Scenario.free_user Cases.nine_images_today)
                  "user_1" 20 eq_refl
                  ltac:(repeat constructor)
                  eq_refl eq_refl ltac:(lia) eq_refl)
           {| status := 200; payload := ImageBody "iVBORw0KGgo=" |}
           (snd (Image.handler Cases.images_answer
                   (Scenario.authed "user_1" (Scenario.with_prompt "a red fox"))
                   (Scenario.world_of Scenario.free_user Cases.nine_images_today)))
           eq_refl eq_refl).
Defined.

(* ================================================================== *)
(** ** The limit over a whole route *)
(* ================================================================== *)

Lemma upload_single_transparent (allowed : list string) (fileSize : Z)
    (refusal : string) :
  transparent (upload_single allowed fileSize refusal).
Proof.
  intros req w. unfold upload_single.
  destruct (file req) as [f|]; [|now left].
  destruct (negb _); [right; eexists; reflexivity|].
  destruct (_ <? _); [right; eexists; reflexivity | now left].
Qed.

Lemma chain_transparent (mids : list (request -> M step))
    (handler : request -> M response) (req : request) (w : world) :
  Forall transparent mids ->
  chain mids handler req w = handler req w \/
  exists e, chain mids handler req w = (Thrown e, w).
Proof.
  induction 1 as [|mw rest Hmw _ IH]; [now left|].
  rewrite chain_cons. destruct (Hmw req w) as [->|[e ->]].
  - exact IH.
  - right. now exists e.
Qed.

Lemma count_rows_snoc_le (uid ft : string) (since : Z) (rows : list GenerationHistory)
    (g : GenerationHistory) :
  Prisma.count_rows uid ft since (rows ++ [g])
  <= Prisma.count_rows uid ft since rows + 1 /\
  (userId g <> uid ->
   Prisma.count_rows uid ft since (rows ++ [g]) = Prisma.count_rows uid ft since rows).
Proof.
  rewrite count_rows_app.
  assert (Prisma.count_rows uid ft since [g]
          = if Prisma.matches uid ft since g then 1 else 0) as ->.
  { unfold Prisma.count_rows. cbn [filter].
    now destruct (Prisma.matches uid ft since g). }
  split.
  - destruct (Prisma.matches uid ft since g); lia.
  - intros Hne. unfold Prisma.matches. apply String.eqb_neq in Hne. rewrite Hne.
    cbn [andb]. lia.
Qed.

Lemma route_respects_limit (E : env) (ft key : string) (good : string -> Prop)
    (mids : list (request -> M step)) (handler : request -> M response) (n : Z)
    (req : request) (w : world) (uid : string) :
  Forall transparent mids ->
  (forall r v, records_exactly_on_success E r ft key good (handler r v) v) ->
  RateLimit.limit_for ft = RateLimit.Number n ->
  is_premium uid (db w) = false ->
  Prisma.count_rows uid ft (RateLimit.startOfDay (now E))
    (generationHistory
       (db (snd (serve (chain (requireAuth E :: RateLimit.enforceDailyLimit E ft :: mids)
                          handler) req w))))
  <= Z.max n (Prisma.count_rows uid ft (RateLimit.startOfDay (now E))
                (generationHistory (db w))).
Proof.
  intros Hmids Hhandler Hlimit Hfree.
  set (since := RateLimit.startOfDay (now E)).
  unfold serve. rewrite chain_cons.
  destruct (requireAuth_cases E req w) as [[r [-> _]]|[sub [mail ->]]].
  { cbn [snd]. lia. }
  rewrite chain_cons.
  set (w1 := signed_in w sub mail).
  set (req1 := with_auth req sub).
  assert (generationHistory (db w1) = generationHistory (db w)) as Hsame by reflexivity.
  pose proof (enforceDailyLimit_run E ft req1 w1) as Hfst.
  destruct (enforceDailyLimit_cases E ft req1 sub w1 eq_refl)
    as [evs [_ [[r [Hrun _]]|Hrun]]]; rewrite Hrun in Hfst |- *.
  { cbn [snd logged db]. rewrite Hsame. lia. }
  cbn [fst] in Hfst.
  destruct (chain_transparent mids handler req1 (logged w1 evs) Hmids) as [->|[e ->]].
  2: { cbn [snd logged db]. rewrite Hsame. lia. }
  destruct (Hhandler req1 (logged w1 evs)) as [r [w' [-> [_ [Hok Hfail]]]]].
  cbn [snd]. cbn [logged db] in Hok, Hfail. rewrite Hsame in Hok, Hfail.
  destruct (Z.eq_dec (status r) 200) as [H200|Hne]; [|rewrite (Hfail Hne); lia].
  destruct (Hok H200) as [uid0 [text [i [Hauth0 [_ [_ ->]]]]]].
  cbn [req1 with_auth auth] in Hauth0. injection Hauth0 as <-.
  match goal with |- context [(?rows ++ [?g])%list] =>
    pose proof (count_rows_snoc_le uid ft since rows g) as [Hle Hother] end.
  cbn [userId] in Hother. fold since in Hle, Hother |- *.
  destruct (String.eqb_spec sub uid) as [->|Hdiff]; [|rewrite (Hother Hdiff); lia].
  (* the signed-in user is [uid], a free user: the check let the request
     through, so the count was below the limit *)
  cbn [req1 with_auth auth] in Hfst.
  pose proof (find_upsert_rows uid uid mail (users (db w))) as Hup.
  unfold is_premium in Hfree.
  cbn [w1 signed_in db users] in Hfst.
  destruct (find _ (Prisma.upsert_rows uid mail (users (db w)))) as [u|];
    [|discriminate].
  assert (isPremium u = false) as Hu.
  { rewrite Hup. destruct (find _ (users (db w))); [exact Hfree | reflexivity]. }
  rewrite Hu, Hlimit in Hfst. cbn [RateLimit.reached generationHistory] in Hfst.
  fold since in Hfst.
  destruct (Z.leb_spec n (Prisma.count_rows uid ft since (generationHistory (db w))));
    [discriminate | lia].
Qed.

(** X22.  Requests served one after the other never take a free user
    beyond the limit.  Whatever a request to one of the three generation
    routes does -- refused or served, by whichever user -- today's count
    of a free user for the feature of the route is afterwards at most
    10, or what it already was if that was more. *)
Theorem served_requests_respect_the_limit (E : env) (req : request) (w : world)
    (uid : string) :
  is_premium uid (db w) = false ->
  let since := RateLimit.startOfDay (now E) in
  Prisma.count_rows uid "image-generator" since
    (generationHistory (db (snd (serve (Image.post E) req w))))
  <= Z.max 10 (Prisma.count_rows uid "image-generator" since (generationHistory (db w)))
  /\
  Prisma.count_rows uid "background-remover" since
    (generationHistory (db (snd (serve (BgRemove.post E) req w))))
  <= Z.max 10 (Prisma.count_rows uid "background-remover" since
                 (generationHistory (db w)))
  /\
  Prisma.count_rows uid "resume-analyzer" since
    (generationHistory (db (snd (serve (Resume.post E) req w))))
  <= Z.max 10 (Prisma.count_rows uid "resume-analyzer" since (generationHistory (db w))).
Proof.
  intros Hfree since. split; [|split].
  - apply (route_respects_limit E "image-generator" "image" _ [] (Image.handler E) 10
             req w uid (Forall_nil _)
             (fun r v => image_records_exactly_on_success Image.models E r v)
             eq_refl Hfree).
  - apply (route_respects_limit E "background-remover" "image" _
             [upload_single ["image/jpeg"; "image/png"] (10 * 1024 * 1024)
                "Only JPG/PNG images are allowed."]
             (BgRemove.handler E) 10 req w uid
             (Forall_cons _ (upload_single_transparent _ _ _) (Forall_nil _))
             (fun r v => bgRemove_records_exactly_on_success BgRemove.models E r v)
             eq_refl Hfree).
  - apply (route_respects_limit E "resume-analyzer" "analysis" _
             [upload_single ["application/pdf"] (5 * 1024 * 1024)
                "Only PDF files are allowed."]
             (Resume.handler E) 10 req w uid
             (Forall_cons _ (upload_single_transparent _ _ _) (Forall_nil _))
             (fun r v => resume_records_exactly_on_success Resume.models E r v)
             eq_refl Hfree).
Qed.

Lemma served_requests_respect_the_limit_witness :
  Prisma.count_rows "user_1" "image-generator" (RateLimit.startOfDay (now Cases.images_answer))
    (generationHistory
       (db (snd (serve (Image.post Cases.images_answer)
                   (Scenario.with_prompt "a red fox")
                   (Scenario.world_of Scenario.free_user Cases.nine_images_today)))))
  <= Z.max 10 (Prisma.count_rows "user_1" "image-generator"
                 (RateLimit.startOfDay (now Cases.images_answer))
                 (generationHistory
                    (db (Scenario.world_of Scenario.free_user Cases.nine_images_today)))).
Proof.
  apply (proj1 (served_requests_respect_the_limit Cases.images_answer
                  (Scenario.with_prompt "a red fox")
                  (Scenario.world_of Scenario.free_user Cases.nine_images_today)
                  "user_1" eq_refl)).
Defined.
